(** * Weather alerts client: fetcher and renderer of [index.js]

    The repository holds two revisions of [index.js] (the page script of
    the weather-alerts lab) and the test suite [test.js] of a city-weather
    variant.  Both revisions are embedded, each in a module of its own:

    - [AlertsA]: the revision whose results container is ["alerts-display"]
      and whose error region is toggled with the CSS class ["hidden"];
    - [AlertsB]: the revision whose results container is ["alerts"] and whose
      error region is toggled with [style.display].

    JavaScript exceptions and DOM mutation are modelled by a state and
    exception monad: a computation maps a store to an outcome (a value or a
    thrown error) and the store it leaves behind, so that what a function
    wrote before throwing stays visible.  An [await] is the sequencing of
    the monad; the network is a function from the requested URL to what
    the request settles to, and the requests issued are recorded.  The
    click listeners ([ClickA], [ClickB]) run on the page and the request
    history together; what the user and other listeners do to the page
    while a request is pending is a parameter of the listener.

    The four elements the script looks up with [getElementById] are taken
    to exist.  Strings are ASCII; the text of the [TypeError]s is the one
    V8 gives. *)

From Stdlib Require Import String Ascii List Bool Arith ZArith Lia.
From Stdlib Require Import DecimalString.
Import ListNotations.

Set Warnings "-register-all".

Local Open Scope string_scope.
Local Open Scope list_scope.

(** ** Thrown values *)

(** The errors the script meets: [new Error(message)] and the [TypeError]
    the engine raises on a property read of [undefined] (or on a failed
    [fetch]). *)
Inductive exn : Type :=
| Error (message : string)
| TypeError (message : string).

(** The message of the [TypeError] raised by reading property [prop] of
    [undefined]. *)
Definition cannot_read (prop : string) : exn :=
  TypeError ("Cannot read properties of undefined (reading '" ++ prop ++ "')").

(** ** Outcomes and the state-and-exception monad *)

Inductive outcome (A : Type) : Type :=
| Returned (a : A)
| Threw (e : exn).

Arguments Returned {A} a.
Arguments Threw {A} e.

Definition M (S A : Type) : Type := S -> outcome A * S.

Definition ret {S A : Type} (a : A) : M S A :=
  fun s => (Returned a, s).

Definition throw {S A : Type} (e : exn) : M S A :=
  fun s => (Threw e, s).

Definition bind {S A B : Type} (m : M S A) (k : A -> M S B) : M S B :=
  fun s =>
    match m s with
    | (Returned a, s') => k a s'
    | (Threw e, s') => (Threw e, s')
    end.

(** [try { body } catch (error) { handler }] *)
Definition try_catch {S A : Type} (body : M S A) (handler : exn -> M S A) : M S A :=
  fun s =>
    match body s with
    | (Returned a, s') => (Returned a, s')
    | (Threw e, s') => handler e s'
    end.

(** Lifting of a store update and of a value that may have thrown. *)
Definition modify {S : Type} (f : S -> S) : M S unit :=
  fun s => (Returned tt, f s).

Definition lift {S A : Type} (o : outcome A) : M S A :=
  fun s => (o, s).

Declare Scope js_scope.
Delimit Scope js_scope with js.

Notation "x <- m ;; k" := (bind m (fun x => k))
  (at level 61, m at next level, right associativity) : js_scope.
Notation "m ;; k" := (bind m (fun _ => k))
  (at level 61, right associativity) : js_scope.

Local Open Scope js_scope.

(** [array.forEach(callback)] where the callback updates a local variable
    of type [L] (here the detached [ul] element) and may throw. *)
Fixpoint forEach {S A L : Type} (l : list A) (callback : A -> L -> M S L) (acc : L) : M S L :=
  match l with
  | [] => ret acc
  | a :: l' => acc' <- callback a acc ;; forEach l' callback acc'
  end.

(** A computation completes when it returns rather than throws. *)
Definition completes {S A : Type} (m : M S A) (s : S) : Prop :=
  exists a s', m s = (Returned a, s').

Definition final {S A : Type} (m : M S A) (s : S) : S := snd (m s).

(** ** Values of the script *)

(** The values the fetcher is called with: the string read from the input
    field, or [null] / [undefined] as in the tests. *)
Inductive jsarg : Type :=
| Undefined
| Null
| Str (s : string).

(** [!v] *)
Definition falsy (v : jsarg) : bool :=
  match v with
  | Undefined => true
  | Null => true
  | Str s => (s =? "")%string
  end.

(** [`${v}`] *)
Definition to_template (v : jsarg) : string :=
  match v with
  | Undefined => "undefined"
  | Null => "null"
  | Str s => s
  end.

(** [`${n}`] for an array length. *)
Definition string_of_nat (n : nat) : string :=
  NilZero.string_of_uint (Nat.to_uint n).

(** *** The alerts payload

    The parsed response body, [{ features: [ { properties: { headline } } ] }].
    The body is returned by the fetcher unchecked, so every field may be
    missing.  The bodies represented are those in which [features] is
    either absent or an array of objects, and [properties] either absent
    or an object: for these two fields [None] is the absent field, whose
    read gives [undefined].  A [features] or [properties] that is [null],
    or present with another type, is not represented.  For [headline],
    [None] is an absent or [null] headline, which the [textContent] setter
    treats alike. *)
Record properties : Type := { headline : option string }.
Record alert : Type := { alert_properties : option properties }.
Record payload : Type := { features : option (list alert) }.

(** *** DOM elements *)

(** An element created by [document.createElement]: its tag, its text and
    its children in document order. *)
Inductive element : Type :=
  mkElement { tagName : string; textContent : string; children : list element }.

Definition createElement (tag : string) : element :=
  {| tagName := tag; textContent := ""; children := [] |}.

(** [e.textContent = text] on a freshly created element. *)
Definition set_textContent (e : element) (text : string) : element :=
  {| tagName := tagName e; textContent := text; children := [] |}.

(** [parent.appendChild(child)] *)
Definition appendChild (parent child : element) : element :=
  {| tagName := tagName parent; textContent := textContent parent;
     children := children parent ++ [child] |}.

(** The string the [textContent] setter stores for a value that may be
    [undefined] or [null]: the attribute is a nullable string, and both
    become the empty string. *)
Definition textContent_of (v : option string) : string :=
  match v with
  | Some s => s
  | None => ""
  end.

(** [v.length] for the value of a field that may be absent: [None] is
    [undefined], whose property read throws. *)
Definition length_of {A : Type} (v : option (list A)) : outcome nat :=
  match v with
  | Some l => Returned (length l)
  | None => Threw (cannot_read "length")
  end.

(** [v.forEach] looked up on the value of a field that may be absent. *)
Definition array_of {A : Type} (v : option (list A)) : outcome (list A) :=
  match v with
  | Some l => Returned l
  | None => Threw (cannot_read "forEach")
  end.

(** [alert.properties.headline]: with [properties] absent, the read of
    [headline] is a read on [undefined] and throws. *)
Definition headline_of (a : alert) : outcome (option string) :=
  match alert_properties a with
  | Some p => Returned (headline p)
  | None => Threw (cannot_read "headline")
  end.

(** The callback both revisions pass to [data.features.forEach]:
    [alert => { const item = document.createElement("li");
                item.textContent = alert.properties.headline;
                list.appendChild(item); }]
    The new [li] and the [ul] it joins are not yet in the page, so the
    store is untouched. *)
Definition add_item {S : Type} (a : alert) (list : element) : M S element :=
  let item := createElement "li" in
  text <- lift (headline_of a) ;;
  let item := set_textContent item (textContent_of text) in
  ret (appendChild list item).

(** ** The network *)

(** What [fetch] resolves to: the [ok] flag, the status and the outcome of
    [response.json()]. *)
Record response (B : Type) : Type :=
  { ok : bool; status : Z; json : outcome B }.

Arguments ok {B} r.
Arguments status {B} r.
Arguments json {B} r.

(** The store of the fetcher is the list of URLs requested so far; the
    behaviour of the network is a function from the URL to the outcome
    of the request (a response, or a rejection). *)
Definition network (B : Type) : Type := string -> outcome (response B).

Definition fetch {B : Type} (net : network B) (url : string) : M (list string) (response B) :=
  fun calls => (net url, calls ++ [url]).

(** ** Revision A of [index.js] *)

Module AlertsA.

(** Base API URL *)
Definition weatherApi : string := "https://api.weather.gov/alerts/active?area=".

(** The part of the page the script reads and writes: the value of
    [stateInput], the children of [alertsDiv], and of [errorDiv] whether
    its class list holds ["hidden"] and its text. *)
Record dom : Type :=
  { stateInput_value : string;
    alertsDiv_children : list element;
    errorDiv_hidden : bool;
    errorDiv_textContent : string }.

(** [alertsDiv.innerHTML = ""] *)
Definition alertsDiv_clear : M dom unit :=
  modify (fun d =>
    {| stateInput_value := stateInput_value d;
       alertsDiv_children := [];
       errorDiv_hidden := errorDiv_hidden d;
       errorDiv_textContent := errorDiv_textContent d |}).

(** [alertsDiv.appendChild(child)] *)
Definition alertsDiv_appendChild (child : element) : M dom unit :=
  modify (fun d =>
    {| stateInput_value := stateInput_value d;
       alertsDiv_children := alertsDiv_children d ++ [child];
       errorDiv_hidden := errorDiv_hidden d;
       errorDiv_textContent := errorDiv_textContent d |}).

(** [errorDiv.classList.add("hidden")] and [errorDiv.classList.remove("hidden")] *)
Definition errorDiv_set_hidden (b : bool) : M dom unit :=
  modify (fun d =>
    {| stateInput_value := stateInput_value d;
       alertsDiv_children := alertsDiv_children d;
       errorDiv_hidden := b;
       errorDiv_textContent := errorDiv_textContent d |}).

(** [errorDiv.textContent = text] *)
Definition errorDiv_set_textContent (text : string) : M dom unit :=
  modify (fun d =>
    {| stateInput_value := stateInput_value d;
       alertsDiv_children := alertsDiv_children d;
       errorDiv_hidden := errorDiv_hidden d;
       errorDiv_textContent := text |}).

(** [stateInput.value = v] *)
Definition stateInput_set_value (v : string) : M dom unit :=
  modify (fun d =>
    {| stateInput_value := v;
       alertsDiv_children := alertsDiv_children d;
       errorDiv_hidden := errorDiv_hidden d;
       errorDiv_textContent := errorDiv_textContent d |}).

(** Function to fetch weather alerts for a given state *)
Definition fetchWeatherAlerts (net : network payload) (state : jsarg)
  : M (list string) payload :=
  (if falsy state
   then throw (Error "Please enter a state abbreviation.")
   else ret tt) ;;
  response <- fetch net (weatherApi ++ to_template state) ;;
  (if negb (ok response)
   then throw (Error "Failed to fetch data. Please check your state code.")
   else ret tt) ;;
  data <- lift (json response) ;;
  ret data.

(** Function to display weather alerts on the page *)
Definition displayAlerts (state : string) (data : payload) : M dom unit :=
  alertsDiv_clear ;;
  errorDiv_set_hidden true ;;
  errorDiv_set_textContent "" ;;
  alertCount <- lift (length_of (features data)) ;;
  let summary := createElement "h3" in
  let summary := set_textContent summary ("Weather Alerts: " ++ string_of_nat alertCount) in
  alertsDiv_appendChild summary ;;
  (if (0 <? alertCount)%nat then
     let list := createElement "ul" in
     alerts <- lift (array_of (features data)) ;;
     list <- forEach alerts add_item list ;;
     alertsDiv_appendChild list
   else
     let noAlerts := createElement "p" in
     let noAlerts := set_textContent noAlerts "No alerts at this time." in
     alertsDiv_appendChild noAlerts) ;;
  stateInput_set_value "".

(** Function to show errors *)
Definition showError (message : string) : M dom unit :=
  alertsDiv_clear ;;
  errorDiv_set_hidden false ;;
  errorDiv_set_textContent message.

(** The results region is populated when [alertsDiv] has children; the
    error region is visible when [errorDiv] is not ["hidden"]. *)
Definition results_populated (d : dom) : bool :=
  match alertsDiv_children d with
  | [] => false
  | _ :: _ => true
  end.

Definition error_visible (d : dom) : bool := negb (errorDiv_hidden d).

End AlertsA.

(** ** Revision B of [index.js] *)

Module AlertsB.

(** Base API URL *)
Definition weatherApi : string := "https://api.weather.gov/alerts/active?area=".

(** The part of the page the script reads and writes: the value of
    [stateInput], the children of [alertsDiv], and of [errorDiv] its
    [style.display] and its text. *)
Record dom : Type :=
  { stateInput_value : string;
    alertsDiv_children : list element;
    errorDiv_display : string;
    errorDiv_innerText : string }.

(** [alertsDiv.innerHTML = ""] *)
Definition alertsDiv_clear : M dom unit :=
  modify (fun d =>
    {| stateInput_value := stateInput_value d;
       alertsDiv_children := [];
       errorDiv_display := errorDiv_display d;
       errorDiv_innerText := errorDiv_innerText d |}).

(** [alertsDiv.appendChild(child)] *)
Definition alertsDiv_appendChild (child : element) : M dom unit :=
  modify (fun d =>
    {| stateInput_value := stateInput_value d;
       alertsDiv_children := alertsDiv_children d ++ [child];
       errorDiv_display := errorDiv_display d;
       errorDiv_innerText := errorDiv_innerText d |}).

(** [errorDiv.style.display = v] *)
Definition errorDiv_set_display (v : string) : M dom unit :=
  modify (fun d =>
    {| stateInput_value := stateInput_value d;
       alertsDiv_children := alertsDiv_children d;
       errorDiv_display := v;
       errorDiv_innerText := errorDiv_innerText d |}).

(** [errorDiv.innerText = text] *)
Definition errorDiv_set_innerText (text : string) : M dom unit :=
  modify (fun d =>
    {| stateInput_value := stateInput_value d;
       alertsDiv_children := alertsDiv_children d;
       errorDiv_display := errorDiv_display d;
       errorDiv_innerText := text |}).

(** [stateInput.value = v] *)
Definition stateInput_set_value (v : string) : M dom unit :=
  modify (fun d =>
    {| stateInput_value := v;
       alertsDiv_children := alertsDiv_children d;
       errorDiv_display := errorDiv_display d;
       errorDiv_innerText := errorDiv_innerText d |}).

(** Function to fetch weather alerts for a given state: the body of
    revision A inside [try { ... } catch (error) { throw error; }]. *)
Definition fetchWeatherAlerts (net : network payload) (state : jsarg)
  : M (list string) payload :=
  try_catch
    ((if falsy state
      then throw (Error "Please enter a state abbreviation.")
      else ret tt) ;;
     response <- fetch net (weatherApi ++ to_template state) ;;
     (if negb (ok response)
      then throw (Error "Failed to fetch data. Please check your state code.")
      else ret tt) ;;
     data <- lift (json response) ;;
     ret data)
    (fun error => throw error).

(** Function to display weather alerts on the page *)
Definition displayAlerts (state : string) (data : payload) : M dom unit :=
  alertsDiv_clear ;;
  errorDiv_set_display "none" ;;
  errorDiv_set_innerText "" ;;
  alertCount <- lift (length_of (features data)) ;;
  let summary := createElement "h3" in
  let summary :=
    set_textContent summary
      ("Current watches, warnings, and advisories for " ++ state ++ ": "
       ++ string_of_nat alertCount) in
  alertsDiv_appendChild summary ;;
  (if (0 <? alertCount)%nat then
     let list := createElement "ul" in
     alerts <- lift (array_of (features data)) ;;
     list <- forEach alerts add_item list ;;
     alertsDiv_appendChild list
   else
     let noAlerts := createElement "p" in
     let noAlerts := set_textContent noAlerts "No alerts at this time." in
     alertsDiv_appendChild noAlerts) ;;
  stateInput_set_value "".

(** Function to show errors *)
Definition showError (message : string) : M dom unit :=
  errorDiv_set_display "block" ;;
  errorDiv_set_innerText message.

(** The results region is populated when [alertsDiv] has children; the
    error region is visible unless its [style.display] is ["none"]. *)
Definition results_populated (d : dom) : bool :=
  match alertsDiv_children d with
  | [] => false
  | _ :: _ => true
  end.

Definition error_visible (d : dom) : bool :=
  negb (errorDiv_display d =? "none")%string.

End AlertsB.

(** ** The city variant's fetcher *)

Module City.

(** [String.prototype.trim] on ASCII text: the white space and line
    terminator characters below U+0080 are tab, line feed, vertical tab,
    form feed, carriage return and space. *)
Definition is_whitespace (c : ascii) : bool :=
  let n := nat_of_ascii c in
  ((9 <=? n)%nat && (n <=? 13)%nat) || (n =? 32)%nat.

Fixpoint trimStart (s : string) : string :=
  match s with
  | EmptyString => EmptyString
  | String c s' => if is_whitespace c then trimStart s' else s
  end.

Definition reverse (s : string) : string :=
  string_of_list_ascii (rev (list_ascii_of_string s)).

Definition trimEnd (s : string) : string := reverse (trimStart (reverse s)).

Definition trim (s : string) : string := trimEnd (trimStart s).

(** A string that consists entirely of white space (the empty string
    included). *)
Definition whitespace_only (s : string) : bool :=
  forallb is_whitespace (list_ascii_of_string s).

Section Fetcher.

(** The parsed body of the city endpoint, the endpoint's base URL and
    the URL escaping, none of which the fetcher inspects. *)
Variable reading : Type.
Variable baseUrl : string.
Variable encodeURIComponent : string -> string.

(** Modelled from the spec: [fetchWeatherData], the fetcher of the city
    variant, is imported by [test.js] from an [index.js] that is not among
    the sources.  Following section 4.1 of the specification: an empty,
    [null], [undefined] or, after trimming, empty location code fails with
    "Please enter a city name." before any request; the trimmed and
    escaped code is appended to the base URL; a transport failure is
    passed on; a response that is not [ok] fails with the message of its
    status (404, 401, any other); otherwise the parsed body is returned. *)
Definition fetchWeatherData (net : network reading) (city : jsarg)
  : M (list string) reading :=
  (if falsy city || (trim (to_template city) =? "")%string
   then throw (Error "Please enter a city name.")
   else ret tt) ;;
  response <- fetch net (baseUrl ++ encodeURIComponent (trim (to_template city))) ;;
  (if negb (ok response) then
     if (status response =? 404)%Z
     then throw (Error "City not found. Please check the city name.")
     else if (status response =? 401)%Z
     then throw (Error "Invalid API key. Please check your configuration.")
     else throw (Error "Failed to fetch weather data. Please try again.")
   else ret tt) ;;
  data <- lift (json response) ;;
  ret data.

End Fetcher.

End City.

(** ** Vocabulary of the properties *)

(** A location code that is empty, [null], [undefined] or made of white
    space only. *)
Definition blank (v : jsarg) : bool :=
  match v with
  | Undefined => true
  | Null => true
  | Str s => City.whitespace_only s
  end.

(** A computation that fails at once with [new Error(msg)] and leaves the
    list of requests as it found it. *)
Definition rejects_without_request {A : Type} (m : M (list string) A) (msg : string) : Prop :=
  forall calls, m calls = (Threw (Error msg), calls).

(** A payload the renderer can walk: [features] is an array and every
    alert in it has a [properties] object. *)
Definition has_properties (a : alert) : bool :=
  match alert_properties a with
  | Some _ => true
  | None => false
  end.

Definition renderable (data : payload) : bool :=
  match features data with
  | Some l => forallb has_properties l
  | None => false
  end.

(** The text shown for an alert: its [properties.headline]. *)
Definition headline_text (a : alert) : string :=
  match alert_properties a with
  | Some p => textContent_of (headline p)
  | None => ""
  end.

(** The elements [displayAlerts] builds. *)
Definition h3 (text : string) : element :=
  {| tagName := "h3"; textContent := text; children := [] |}.

Definition li (text : string) : element :=
  {| tagName := "li"; textContent := text; children := [] |}.

Definition ul (items : list element) : element :=
  {| tagName := "ul"; textContent := ""; children := items |}.

Definition p (text : string) : element :=
  {| tagName := "p"; textContent := text; children := [] |}.

(** What follows the summary: the list of headlines, in the order of
    [features], or the notice that there is none. *)
Definition listing (l : list alert) : element :=
  match l with
  | [] => p "No alerts at this time."
  | _ :: _ => ul (map (fun a => li (headline_text a)) l)
  end.

(** The summary line of the specification. *)
Definition spec_summary (location : string) (count : nat) : string :=
  "Current watches, warnings, and advisories for " ++ location ++ ": "
  ++ string_of_nat count.

(** The message the specification gives for a response that is not [ok],
    by status; and the same read for the alerts variant, whose 404 has the
    generic message. *)
Definition spec_status_message (st : Z) : string :=
  if (st =? 404)%Z then "City not found. Please check the city name."
  else if (st =? 401)%Z then "Invalid API key. Please check your configuration."
  else "Failed to fetch weather data. Please try again.".

Definition spec_alerts_status_message (st : Z) : string :=
  if (st =? 404)%Z then "Failed to fetch data. Please check your state code."
  else spec_status_message st.

(** What a request to [url] makes of the network's answer, in both
    revisions: a rejection is passed on, a response that is not [ok] is
    turned into the generic error, and the parsed body is returned. *)
Definition settle (answer : outcome (response payload)) : outcome payload :=
  match answer with
  | Threw e => Threw e
  | Returned r =>
      if ok r then json r
      else Threw (Error "Failed to fetch data. Please check your state code.")
  end.

(** ** Sample pages, payloads and networks *)

Definition make_alert (h : string) : alert :=
  {| alert_properties := Some {| headline := Some h |} |}.

Definition two_alerts : payload :=
  {| features := Some [make_alert "Flood Warning"; make_alert "Heat Advisory"] |}.

Definition no_alerts : payload := {| features := Some [] |}.

Definition no_features : payload := {| features := None |}.

Definition pageA_with_error : AlertsA.dom :=
  {| AlertsA.stateInput_value := "ny";
     AlertsA.alertsDiv_children := [];
     AlertsA.errorDiv_hidden := false;
     AlertsA.errorDiv_textContent := "Failed to fetch data. Please check your state code." |}.

Definition pageB_with_error : AlertsB.dom :=
  {| AlertsB.stateInput_value := "ny";
     AlertsB.alertsDiv_children := [];
     AlertsB.errorDiv_display := "block";
     AlertsB.errorDiv_innerText := "Failed to fetch data. Please check your state code." |}.

(** A network that is down, one that answers every request with a given
    status and body, for the alerts and for the city endpoint. *)
Definition net_down {B : Type} : network B :=
  fun _ => Threw (Error "Network error").

Definition net_status {B : Type} (st : Z) (body : B) : network B :=
  fun _ => Returned {| ok := ((200 <=? st)%Z && (st <=? 299)%Z); status := st; json := Returned body |}.

(** ** The click listener *)

(** [error.message] *)
Definition message (e : exn) : string :=
  match e with
  | Error m => m
  | TypeError m => m
  end.

(** [String.prototype.toUpperCase] on ASCII text: the letters [a] to [z]
    become [A] to [Z], every other character below U+0080 is kept. *)
Definition upper (c : ascii) : ascii :=
  let n := nat_of_ascii c in
  if ((97 <=? n)%nat && (n <=? 122)%nat) then ascii_of_nat (n - 32) else c.

Fixpoint toUpperCase (s : string) : string :=
  match s with
  | EmptyString => EmptyString
  | String c s' => String (upper c) (toUpperCase s')
  end.

(** The listener works on the page and on the network at once: its store
    is the page together with the requests issued so far. *)
Definition on_page {D A : Type} (m : M D A) : M (D * list string) A :=
  fun w =>
    let (o, d') := m (fst w) in
    (o, (d', snd w)).

(** [await] of the fetcher by the listener.  The fetcher runs on the
    request history.  When it has issued a request, the listener was
    suspended until the network answered, and it resumes on the page as
    the user and other listeners left it [meanwhile]; when it has failed
    before any request, the listener resumes at once, on the same
    page. *)
Definition awaiting {D A : Type} (meanwhile : D -> D) (m : M (list string) A)
  : M (D * list string) A :=
  fun w =>
    let (o, calls') := m (snd w) in
    let page :=
      if (length calls' =? length (snd w))%nat then fst w else meanwhile (fst w) in
    (o, (page, calls')).

Module ClickA.

Import AlertsA.

(** [stateInput.value] *)
Definition stateInput_get_value : M dom string :=
  fun d => (Returned (stateInput_value d), d).

(** Event listener for the button click (revision A) *)
Definition onClick (net : network payload) (meanwhile : dom -> dom)
  : M (dom * list string) unit :=
  value <- on_page stateInput_get_value ;;
  let state := toUpperCase value in
  try_catch
    (data <- awaiting meanwhile (fetchWeatherAlerts net (Str state)) ;;
     on_page (displayAlerts state data))
    (fun error => on_page (showError (message error))).

End ClickA.

Module ClickB.

Import AlertsB.

(** [stateInput.value] *)
Definition stateInput_get_value : M dom string :=
  fun d => (Returned (stateInput_value d), d).

(** Event listener for the button click (revision B) *)
Definition onClick (net : network payload) (meanwhile : dom -> dom)
  : M (dom * list string) unit :=
  value <- on_page stateInput_get_value ;;
  let state := toUpperCase value in
  try_catch
    (data <- awaiting meanwhile (fetchWeatherAlerts net (Str state)) ;;
     on_page (displayAlerts state data))
    (fun error => on_page (showError (message error))).

End ClickB.

(** Two answers of the network that differ at most in the status of the
    response. *)
Definition same_but_status (a1 a2 : outcome (response payload)) : Prop :=
  match a1, a2 with
  | Returned r1, Returned r2 => ok r1 = ok r2 /\ json r1 = json r2
  | Threw e1, Threw e2 => e1 = e2
  | _, _ => False
  end.

(** *** More samples *)

(** A payload whose second alert has no [properties]. *)
Definition broken_alerts : payload :=
  {| features := Some [make_alert "Flood Warning"; {| alert_properties := None |}] |}.

(** Pages that show the alerts of an earlier request, with a new code
    typed in. *)
Definition pageA_with_alerts : AlertsA.dom :=
  {| AlertsA.stateInput_value := "ny";
     AlertsA.alertsDiv_children := [h3 "Weather Alerts: 0"; p "No alerts at this time."];
     AlertsA.errorDiv_hidden := true;
     AlertsA.errorDiv_textContent := "" |}.

Definition pageB_with_alerts : AlertsB.dom :=
  {| AlertsB.stateInput_value := "ny";
     AlertsB.alertsDiv_children :=
       [h3 "Current watches, warnings, and advisories for TX: 0";
        p "No alerts at this time."];
     AlertsB.errorDiv_display := "none";
     AlertsB.errorDiv_innerText := "" |}.

(** The user typing [text] in the input field while a request is
    pending. *)
Definition typingA (text : string) (d : AlertsA.dom) : AlertsA.dom :=
  {| AlertsA.stateInput_value := text;
     AlertsA.alertsDiv_children := AlertsA.alertsDiv_children d;
     AlertsA.errorDiv_hidden := AlertsA.errorDiv_hidden d;
     AlertsA.errorDiv_textContent := AlertsA.errorDiv_textContent d |}.

Definition typingB (text : string) (d : AlertsB.dom) : AlertsB.dom :=
  {| AlertsB.stateInput_value := text;
     AlertsB.alertsDiv_children := AlertsB.alertsDiv_children d;
     AlertsB.errorDiv_display := AlertsB.errorDiv_display d;
     AlertsB.errorDiv_innerText := AlertsB.errorDiv_innerText d |}.

(** * Properties *)

(** ** The monad *)

(** Catching an error only to throw it again changes nothing. *)
Lemma try_catch_rethrow {S A : Type} (body : M S A) s :
  try_catch body (fun error => throw error) s = body s.
Proof.
  unfold try_catch, throw.
  destruct (body s) as [[a | e] s']; reflexivity.
Qed.

(** ** The loop over the alerts *)

Section ForEach.

Context {S : Type}.

(** The callback never touches the page. *)
Lemma add_item_store (a : alert) (acc : element) (d : S) :
  snd (add_item a acc d) = d.
Proof.
  unfold add_item, bind, lift, ret, headline_of.
  destruct (alert_properties a); reflexivity.
Qed.

Lemma forEach_add_item_store (l : list alert) :
  forall (acc : element) (d : S), snd (forEach l add_item acc d) = d.
Proof.
  induction l as [| a l IH]; intros acc d; simpl.
  - reflexivity.
  - unfold bind.
    pose proof (add_item_store a acc d) as Ha.
    destruct (add_item a acc d) as [[acc' | e] d']; simpl in Ha; subst d'.
    + apply IH.
    + reflexivity.
Qed.

(** When every alert has its [properties], the loop appends one [li] per
    alert, in order. *)
Lemma forEach_add_item_returns (l : list alert) :
  forall (acc : element) (d : S),
    forallb has_properties l = true ->
    forEach l add_item acc d =
    (Returned {| tagName := tagName acc;
                 textContent := textContent acc;
                 children := children acc ++ map (fun a => li (headline_text a)) l |},
     d).
Proof.
  induction l as [| a l IH]; intros acc d Hl; simpl in *.
  - rewrite app_nil_r. destruct acc; reflexivity.
  - apply andb_true_iff in Hl. destruct Hl as [Ha Hl].
    unfold has_properties in Ha.
    unfold bind at 1. unfold add_item, bind, lift, ret, headline_of.
    unfold headline_text at 1.
    destruct (alert_properties a) as [pr |]; [| discriminate].
    rewrite IH by assumption. simpl.
    rewrite <- app_assoc. reflexivity.
Qed.

(** When some alert lacks its [properties], the loop throws. *)
Lemma forEach_add_item_throws (l : list alert) :
  forall (acc : element) (d : S),
    forallb has_properties l = false ->
    forEach l add_item acc d = (Threw (cannot_read "headline"), d).
Proof.
  induction l as [| a l IH]; intros acc d Hl; simpl in *.
  - discriminate.
  - unfold bind at 1. unfold add_item, bind, lift, ret, headline_of.
    unfold has_properties in Hl at 1.
    destruct (alert_properties a) as [pr |]; simpl in *.
    + apply IH. assumption.
    + reflexivity.
Qed.

End ForEach.

(** ** What [displayAlerts] leaves on the page *)

Ltac run_displayAlerts :=
  cbv [AlertsA.displayAlerts AlertsB.displayAlerts
       AlertsA.alertsDiv_clear AlertsA.alertsDiv_appendChild
       AlertsA.errorDiv_set_hidden AlertsA.errorDiv_set_textContent
       AlertsA.stateInput_set_value
       AlertsB.alertsDiv_clear AlertsB.alertsDiv_appendChild
       AlertsB.errorDiv_set_display AlertsB.errorDiv_set_innerText
       AlertsB.stateInput_set_value
       bind modify lift ret length_of array_of]; simpl.

Section DisplayAlertsA.

Import AlertsA.

Variables (state : string) (data : payload) (d : dom).

Lemma displayAlerts_A_no_features :
  features data = None ->
  displayAlerts state data d =
  (Threw (cannot_read "length"),
   {| stateInput_value := stateInput_value d;
      alertsDiv_children := [];
      errorDiv_hidden := true;
      errorDiv_textContent := "" |}).
Proof. intros Hf. run_displayAlerts. rewrite Hf. reflexivity. Qed.

Lemma displayAlerts_A_renders (l : list alert) :
  features data = Some l ->
  forallb has_properties l = true ->
  displayAlerts state data d =
  (Returned tt,
   {| stateInput_value := "";
      alertsDiv_children :=
        [h3 ("Weather Alerts: " ++ string_of_nat (length l)); listing l];
      errorDiv_hidden := true;
      errorDiv_textContent := "" |}).
Proof.
  intros Hf Hl. run_displayAlerts. rewrite Hf.
  destruct l as [| a l']; [reflexivity |].
  cbv [Nat.ltb Nat.leb length].
  rewrite (forEach_add_item_returns (a :: l') _ _ Hl). reflexivity.
Qed.

Lemma displayAlerts_A_bad_alert (l : list alert) :
  features data = Some l ->
  forallb has_properties l = false ->
  displayAlerts state data d =
  (Threw (cannot_read "headline"),
   {| stateInput_value := stateInput_value d;
      alertsDiv_children := [h3 ("Weather Alerts: " ++ string_of_nat (length l))];
      errorDiv_hidden := true;
      errorDiv_textContent := "" |}).
Proof.
  intros Hf Hl. run_displayAlerts. rewrite Hf.
  destruct l as [| a l']; [discriminate |].
  cbv [Nat.ltb Nat.leb length].
  rewrite (forEach_add_item_throws (a :: l') _ _ Hl). reflexivity.
Qed.

End DisplayAlertsA.

Section DisplayAlertsB.

Import AlertsB.

Variables (state : string) (data : payload) (d : dom).

Lemma displayAlerts_B_no_features :
  features data = None ->
  displayAlerts state data d =
  (Threw (cannot_read "length"),
   {| stateInput_value := stateInput_value d;
      alertsDiv_children := [];
      errorDiv_display := "none";
      errorDiv_innerText := "" |}).
Proof. intros Hf. run_displayAlerts. rewrite Hf. reflexivity. Qed.

Lemma displayAlerts_B_renders (l : list alert) :
  features data = Some l ->
  forallb has_properties l = true ->
  displayAlerts state data d =
  (Returned tt,
   {| stateInput_value := "";
      alertsDiv_children := [h3 (spec_summary state (length l)); listing l];
      errorDiv_display := "none";
      errorDiv_innerText := "" |}).
Proof.
  intros Hf Hl. run_displayAlerts. rewrite Hf.
  destruct l as [| a l']; [reflexivity |].
  cbv [Nat.ltb Nat.leb length].
  rewrite (forEach_add_item_returns (a :: l') _ _ Hl). reflexivity.
Qed.

Lemma displayAlerts_B_bad_alert (l : list alert) :
  features data = Some l ->
  forallb has_properties l = false ->
  displayAlerts state data d =
  (Threw (cannot_read "headline"),
   {| stateInput_value := stateInput_value d;
      alertsDiv_children := [h3 (spec_summary state (length l))];
      errorDiv_display := "none";
      errorDiv_innerText := "" |}).
Proof.
  intros Hf Hl. run_displayAlerts. rewrite Hf.
  destruct l as [| a l']; [discriminate |].
  cbv [Nat.ltb Nat.leb length].
  rewrite (forEach_add_item_throws (a :: l') _ _ Hl). reflexivity.
Qed.

End DisplayAlertsB.

(** ** Trimming *)

Section Trim.

Import City.

Lemma trimStart_whitespace_only (s : string) :
  whitespace_only s = true -> trimStart s = "".
Proof.
  unfold whitespace_only.
  induction s as [| c s IH]; simpl; intros H.
  - reflexivity.
  - apply andb_true_iff in H. destruct H as [Hc Hs].
    rewrite Hc. apply IH, Hs.
Qed.

Lemma trimStart_empty (s : string) :
  trimStart s = "" -> whitespace_only s = true.
Proof.
  unfold whitespace_only.
  induction s as [| c s IH]; simpl; intros H.
  - reflexivity.
  - destruct (is_whitespace c); [apply IH, H | discriminate].
Qed.

(** What [trimStart] leaves does not start with white space. *)
Lemma trimStart_head (s : string) (c : ascii) (t : string) :
  trimStart s = String c t -> is_whitespace c = false.
Proof.
  induction s as [| c0 s IH]; simpl; intros H.
  - discriminate.
  - destruct (is_whitespace c0) eqn:E.
    + apply IH, H.
    + injection H as -> _. exact E.
Qed.

Lemma reverse_empty (s : string) : reverse s = "" -> s = "".
Proof.
  unfold reverse. intros H.
  apply (f_equal list_ascii_of_string) in H.
  rewrite list_ascii_of_string_of_list_ascii in H. simpl in H.
  destruct s as [| c s]; [reflexivity |].
  simpl in H. symmetry in H. apply app_cons_not_nil in H. contradiction.
Qed.

Lemma whitespace_only_reverse (s : string) :
  whitespace_only (reverse s) = true -> whitespace_only s = true.
Proof.
  unfold whitespace_only, reverse.
  rewrite list_ascii_of_string_of_list_ascii.
  rewrite !forallb_forall. intros H c Hc. apply H, in_rev.
  rewrite rev_involutive. exact Hc.
Qed.

Lemma trimEnd_empty (s : string) :
  trimEnd s = "" -> whitespace_only s = true.
Proof.
  unfold trimEnd. intros H.
  apply reverse_empty, trimStart_empty in H.
  apply whitespace_only_reverse, H.
Qed.

(** A string trims to the empty string exactly when it is made of white
    space only. *)
Lemma trim_empty_iff (s : string) :
  trim s = "" <-> whitespace_only s = true.
Proof.
  unfold trim. split; intros H.
  - apply trimEnd_empty in H.
    destruct (trimStart s) as [| c t] eqn:E.
    + apply trimStart_empty, E.
    + apply trimStart_head in E.
      unfold whitespace_only in H. simpl in H. rewrite E in H. discriminate.
  - rewrite (trimStart_whitespace_only s H). reflexivity.
Qed.

Lemma trim_eqb_blank (s : string) :
  (trim s =? "")%string = whitespace_only s.
Proof.
  destruct (whitespace_only s) eqn:E.
  - apply String.eqb_eq, trim_empty_iff, E.
  - apply String.eqb_neq. intros H. apply trim_empty_iff in H. congruence.
Qed.

End Trim.

(** ** The fetcher *)

Lemma fetchWeatherAlerts_A_falsy (net : network payload) (state : jsarg) calls :
  falsy state = true ->
  AlertsA.fetchWeatherAlerts net state calls =
  (Threw (Error "Please enter a state abbreviation."), calls).
Proof.
  intros H. unfold AlertsA.fetchWeatherAlerts, bind. rewrite H. reflexivity.
Qed.

Lemma fetchWeatherAlerts_A_truthy (net : network payload) (state : jsarg) calls :
  falsy state = false ->
  AlertsA.fetchWeatherAlerts net state calls =
  (settle (net (AlertsA.weatherApi ++ to_template state)%string),
   calls ++ [(AlertsA.weatherApi ++ to_template state)%string]).
Proof.
  intros H. unfold AlertsA.fetchWeatherAlerts, bind, fetch, settle. rewrite H.
  cbv [ret throw lift].
  destruct (net _) as [r | e]; [| reflexivity].
  destruct (ok r); simpl; [| reflexivity].
  destruct (json r); reflexivity.
Qed.

Lemma fetchWeatherAlerts_B_unfold (net : network payload) (state : jsarg) calls :
  AlertsB.fetchWeatherAlerts net state calls =
  AlertsA.fetchWeatherAlerts net state calls.
Proof.
  unfold AlertsB.fetchWeatherAlerts. rewrite try_catch_rethrow. reflexivity.
Qed.

Section CityFetcher.

Variables (reading : Type) (baseUrl : string) (encodeURIComponent : string -> string).

Lemma fetchWeatherData_blank (net : network reading) (city : jsarg) calls :
  blank city = true ->
  City.fetchWeatherData reading baseUrl encodeURIComponent net city calls = (Threw (Error "Please enter a city name."), calls).
Proof.
  intros H. unfold City.fetchWeatherData, bind.
  destruct city as [| | s]; try reflexivity.
  simpl in H. simpl. rewrite trim_eqb_blank, H, orb_true_r. reflexivity.
Qed.

Lemma fetchWeatherData_not_ok (net : network reading) (s : string) (r : response reading) calls :
  blank (Str s) = false ->
  net (baseUrl ++ encodeURIComponent (City.trim s))%string = Returned r ->
  ok r = false ->
  City.fetchWeatherData reading baseUrl encodeURIComponent net (Str s) calls =
  (Threw (Error (spec_status_message (status r))),
   calls ++ [(baseUrl ++ encodeURIComponent (City.trim s))%string]).
Proof.
  intros Hs Hnet Hok. unfold City.fetchWeatherData, bind, fetch.
  simpl in Hs. simpl. rewrite trim_eqb_blank, Hs.
  assert (Hne : (s =? "")%string = false).
  { destruct s; [discriminate | reflexivity]. }
  rewrite Hne. simpl. rewrite Hnet, Hok. simpl.
  unfold spec_status_message.
  destruct (status r =? 404)%Z; [reflexivity |].
  destruct (status r =? 401)%Z; reflexivity.
Qed.

End CityFetcher.

(** ** The two display regions *)

(** In revision A the two regions exclude each other after either
    renderer, whatever the payload and whether or not [displayAlerts]
    throws: [displayAlerts] hides the error region before anything else,
    and [showError] empties the results region. *)
Lemma exclusive_after_displayAlerts_A (state : string) (data : payload) (d : AlertsA.dom) :
  AlertsA.error_visible (final (AlertsA.displayAlerts state data) d) = false.
Proof.
  unfold final.
  destruct (features data) as [l |] eqn:Hf.
  - destruct (forallb has_properties l) eqn:Hl.
    + rewrite (displayAlerts_A_renders state data d l Hf Hl). reflexivity.
    + rewrite (displayAlerts_A_bad_alert state data d l Hf Hl). reflexivity.
  - rewrite (displayAlerts_A_no_features state data d Hf). reflexivity.
Qed.

Lemma exclusive_after_showError_A (msg : string) (d : AlertsA.dom) :
  AlertsA.results_populated (final (AlertsA.showError msg) d) = false.
Proof. reflexivity. Qed.

Lemma exclusive_after_displayAlerts_B (state : string) (data : payload) (d : AlertsB.dom) :
  AlertsB.error_visible (final (AlertsB.displayAlerts state data) d) = false.
Proof.
  unfold final.
  destruct (features data) as [l |] eqn:Hf.
  - destruct (forallb has_properties l) eqn:Hl.
    + rewrite (displayAlerts_B_renders state data d l Hf Hl). reflexivity.
    + rewrite (displayAlerts_B_bad_alert state data d l Hf Hl). reflexivity.
  - rewrite (displayAlerts_B_no_features state data d Hf). reflexivity.
Qed.

(** In revision B [showError] writes the error region only: the results
    region keeps whatever it held. *)
Lemma showError_B_keeps_results (msg : string) (d : AlertsB.dom) :
  AlertsB.alertsDiv_children (final (AlertsB.showError msg) d) =
  AlertsB.alertsDiv_children d
  /\ AlertsB.error_visible (final (AlertsB.showError msg) d) = true.
Proof. split; reflexivity. Qed.

(** C1.  The results region and the error region are never both visible
    or populated after a renderer has run.  Revision B breaks this:
    after [displayAlerts("NY", data)] with two alerts has filled the
    results region, [showError("Please enter a state abbreviation.")]
    shows the error region and leaves the summary and the list of
    headlines in place, so both regions are on display. *)
Theorem C1_showError_B_leaves_results_on_display :
  let shown := final (AlertsB.displayAlerts "NY" two_alerts) pageB_with_error in
  let failed := final (AlertsB.showError "Please enter a state abbreviation.") shown in
  AlertsB.results_populated failed = true
  /\ AlertsB.error_visible failed = true
  /\ AlertsB.alertsDiv_children failed =
     [h3 "Current watches, warnings, and advisories for NY: 2";
      ul [li "Flood Warning"; li "Heat Advisory"]]
  /\ AlertsB.errorDiv_innerText failed = "Please enter a state abbreviation.".
Proof. repeat split. Qed.

(** ** Input validation *)

(** C2, as stated, fails.  The code ["   "] is made of white space only,
    yet the alerts fetcher does not reject it before the request: the
    request for [weatherApi + "   "] is issued, so no message makes it a
    failure without a network call. *)
Lemma C2_whitespace_state_is_requested :
  blank (Str "   ") = true
  /\ (forall msg,
        ~ rejects_without_request (AlertsA.fetchWeatherAlerts net_down (Str "   ")) msg)
  /\ snd (AlertsA.fetchWeatherAlerts net_down (Str "   ") []) =
     ["https://api.weather.gov/alerts/active?area=   "].
Proof.
  split; [reflexivity |]. split; [| reflexivity].
  intros msg H. specialize (H []). vm_compute in H. discriminate H.
Qed.

(** C2, amended.  For every location code that is empty, [null],
    [undefined] or made of white space only, the city fetcher fails at
    once with "Please enter a city name." and issues no request.  The
    alerts fetcher (both revisions) fails at once with "Please enter a
    state abbreviation." and issues no request when the code is empty,
    [null] or [undefined]; a code that is not empty, white space
    included, is sent: exactly one request, for [weatherApi] followed by
    the code, is issued. *)
Theorem C2_invalid_input_amended
  (reading : Type) (baseUrl : string) (encodeURIComponent : string -> string)
  (cnet : network reading) (net : network payload) (code : jsarg)
  (H : blank code = true) :
  rejects_without_request
    (City.fetchWeatherData reading baseUrl encodeURIComponent cnet code)
    "Please enter a city name."
  /\ match code with
     | Str (String c s) =>
         forall calls,
           snd (AlertsA.fetchWeatherAlerts net code calls) =
             calls ++ [(AlertsA.weatherApi ++ String c s)%string]
           /\ snd (AlertsB.fetchWeatherAlerts net code calls) =
             calls ++ [(AlertsB.weatherApi ++ String c s)%string]
     | _ =>
         rejects_without_request (AlertsA.fetchWeatherAlerts net code)
           "Please enter a state abbreviation."
         /\ rejects_without_request (AlertsB.fetchWeatherAlerts net code)
           "Please enter a state abbreviation."
     end.
Proof.
  split.
  - intros calls. apply fetchWeatherData_blank, H.
  - destruct code as [| | [| c s]].
    + split; intros calls; [| rewrite fetchWeatherAlerts_B_unfold];
        apply fetchWeatherAlerts_A_falsy; reflexivity.
    + split; intros calls; [| rewrite fetchWeatherAlerts_B_unfold];
        apply fetchWeatherAlerts_A_falsy; reflexivity.
    + split; intros calls; [| rewrite fetchWeatherAlerts_B_unfold];
        apply fetchWeatherAlerts_A_falsy; reflexivity.
    + intros calls. rewrite fetchWeatherAlerts_B_unfold.
      rewrite fetchWeatherAlerts_A_truthy by reflexivity.
      split; reflexivity.
Qed.

Lemma C2_invalid_input_witness :
  blank (Str "   ") = true
  /\ rejects_without_request
       (City.fetchWeatherData unit "https://example.org/weather?q=" (fun s => s)
          net_down (Str "   "))
       "Please enter a city name."
  /\ (forall calls,
        snd (AlertsA.fetchWeatherAlerts net_down (Str "   ") calls) =
        calls ++ ["https://api.weather.gov/alerts/active?area=   "]).
Proof.
  split; [reflexivity |].
  pose proof (C2_invalid_input_amended unit "https://example.org/weather?q="
                (fun s => s) net_down net_down (Str "   ") eq_refl) as [Hc Ha].
  split; [exact Hc |].
  intros calls. exact (proj1 (Ha calls)).
Defined.

(** ** Totality of the renderers *)

(** C3, as stated, fails.  On a payload without [features],
    [displayAlerts] throws the [TypeError] of reading [length] of
    [undefined]; it does not complete. *)
Lemma C3_displayAlerts_throws_without_features :
  ~ completes (AlertsA.displayAlerts "NY" no_features) pageA_with_error
  /\ fst (AlertsA.displayAlerts "NY" no_features pageA_with_error) =
     Threw (TypeError "Cannot read properties of undefined (reading 'length')").
Proof.
  split; [| reflexivity].
  intros [a [d' H]]. vm_compute in H. discriminate H.
Qed.

(** C3, amended.  [showError] completes for every message and every
    page.  [displayAlerts] completes for every payload whose [features]
    is an array in which every alert has a [properties] object (the
    headline itself may be missing).  On a payload whose [features] is
    absent it throws the [TypeError] of reading [length] of [undefined],
    leaving the results region empty, the error region hidden and empty
    and the input field as it was; on a payload in which some alert has no
    [properties] it throws the [TypeError] of reading [headline] of
    [undefined]. *)
Theorem C3_renderers_complete_amended
  (state msg : string) (data : payload) (dA : AlertsA.dom) (dB : AlertsB.dom) :
  (completes (AlertsA.showError msg) dA /\ completes (AlertsB.showError msg) dB)
  /\ (renderable data = true ->
      completes (AlertsA.displayAlerts state data) dA
      /\ completes (AlertsB.displayAlerts state data) dB)
  /\ (features data = None ->
      AlertsA.displayAlerts state data dA =
        (Threw (TypeError "Cannot read properties of undefined (reading 'length')"),
         {| AlertsA.stateInput_value := AlertsA.stateInput_value dA;
            AlertsA.alertsDiv_children := [];
            AlertsA.errorDiv_hidden := true;
            AlertsA.errorDiv_textContent := "" |})
      /\ AlertsB.displayAlerts state data dB =
        (Threw (TypeError "Cannot read properties of undefined (reading 'length')"),
         {| AlertsB.stateInput_value := AlertsB.stateInput_value dB;
            AlertsB.alertsDiv_children := [];
            AlertsB.errorDiv_display := "none";
            AlertsB.errorDiv_innerText := "" |}))
  /\ (forall l, features data = Some l -> forallb has_properties l = false ->
      fst (AlertsA.displayAlerts state data dA) =
        Threw (TypeError "Cannot read properties of undefined (reading 'headline')")
      /\ fst (AlertsB.displayAlerts state data dB) =
        Threw (TypeError "Cannot read properties of undefined (reading 'headline')")).
Proof.
  split; [split; eexists; eexists; reflexivity |].
  split; [| split].
  - unfold renderable, completes. intros Hdata.
    destruct (features data) as [l |] eqn:Hf; [| discriminate].
    rewrite (displayAlerts_A_renders state data dA l Hf Hdata).
    rewrite (displayAlerts_B_renders state data dB l Hf Hdata).
    split; eexists; eexists; reflexivity.
  - intros Hf.
    rewrite (displayAlerts_A_no_features state data dA Hf).
    rewrite (displayAlerts_B_no_features state data dB Hf).
    split; reflexivity.
  - intros l Hf Hl.
    rewrite (displayAlerts_A_bad_alert state data dA l Hf Hl).
    rewrite (displayAlerts_B_bad_alert state data dB l Hf Hl).
    split; reflexivity.
Qed.

Lemma C3_renderers_complete_witness :
  renderable two_alerts = true
  /\ completes (AlertsA.displayAlerts "NY" two_alerts) pageA_with_error
  /\ completes (AlertsB.showError "Network error") pageB_with_error
  /\ features no_features = None
  /\ fst (AlertsB.displayAlerts "NY" no_features pageB_with_error) =
     Threw (TypeError "Cannot read properties of undefined (reading 'length')").
Proof.
  pose proof (C3_renderers_complete_amended "NY" "Network error" two_alerts
                pageA_with_error pageB_with_error) as [[_ Hs] [Hd _]].
  pose proof (C3_renderers_complete_amended "NY" "Network error" no_features
                pageA_with_error pageB_with_error) as [_ [_ [Hn _]]].
  split; [reflexivity |].
  split; [exact (proj1 (Hd eq_refl)) |].
  split; [exact Hs |].
  split; [reflexivity |].
  rewrite (proj2 (Hn eq_refl)). reflexivity.
Defined.

(** ** Responses that are not [ok] *)

(** C4, as stated, fails.  For the alerts fetcher the statement gives
    the generic state-code message to status 404 only; a response with
    status 500 should then fail with "Failed to fetch weather data.
    Please try again.", but the fetcher never looks at the status and
    fails with the state-code message again. *)
Lemma C4_alerts_500_has_the_state_code_message :
  fst (AlertsA.fetchWeatherAlerts (net_status 500 no_alerts) (Str "NY") []) =
    Threw (Error "Failed to fetch data. Please check your state code.")
  /\ fst (AlertsA.fetchWeatherAlerts (net_status 500 no_alerts) (Str "NY") []) <>
    Threw (Error (spec_alerts_status_message 500)).
Proof. split; [reflexivity | vm_compute; discriminate]. Qed.

(** C4, amended.  For a location code that is not blank and a response
    that is not [ok]: the city fetcher fails with the message of the
    status: "City not found. Please check the city name." for 404,
    "Invalid API key. Please check your configuration." for 401 and
    "Failed to fetch weather data. Please try again." for any other; the
    alerts fetcher (both revisions) fails with "Failed to fetch data.
    Please check your state code." whatever the status. *)
Theorem C4_status_messages_amended
  (reading : Type) (baseUrl : string) (encodeURIComponent : string -> string)
  (cnet : network reading) (net : network payload) (code : string)
  (r' : response reading) (r : response payload) (calls : list string)
  (Hcode : blank (Str code) = false)
  (Hcnet : cnet (baseUrl ++ encodeURIComponent (City.trim code))%string = Returned r')
  (Hnet : net (AlertsA.weatherApi ++ code)%string = Returned r)
  (Hok' : ok r' = false)
  (Hok : ok r = false) :
  fst (City.fetchWeatherData reading baseUrl encodeURIComponent cnet (Str code) calls) =
    Threw (Error (spec_status_message (status r')))
  /\ fst (AlertsA.fetchWeatherAlerts net (Str code) calls) =
    Threw (Error "Failed to fetch data. Please check your state code.")
  /\ fst (AlertsB.fetchWeatherAlerts net (Str code) calls) =
    Threw (Error "Failed to fetch data. Please check your state code.").
Proof.
  assert (Hne : falsy (Str code) = false).
  { destruct code; [discriminate | reflexivity]. }
  split.
  - rewrite (fetchWeatherData_not_ok reading baseUrl encodeURIComponent
               cnet code r' calls Hcode Hcnet Hok').
    reflexivity.
  - rewrite fetchWeatherAlerts_B_unfold.
    rewrite (fetchWeatherAlerts_A_truthy net (Str code) calls Hne).
    change (to_template (Str code)) with code.
    rewrite Hnet. unfold settle. rewrite Hok. split; reflexivity.
Qed.

Lemma C4_status_messages_witness :
  fst (City.fetchWeatherData unit "https://example.org/weather?q=" (fun s => s)
         (net_status 401 tt) (Str "London") []) =
    Threw (Error "Invalid API key. Please check your configuration.")
  /\ fst (AlertsA.fetchWeatherAlerts (net_status 401 no_alerts) (Str "London") []) =
    Threw (Error "Failed to fetch data. Please check your state code.").
Proof.
  pose proof (C4_status_messages_amended unit "https://example.org/weather?q="
                (fun s => s) (net_status 401 tt) (net_status 401 no_alerts)
                "London" _ _ [] eq_refl eq_refl eq_refl eq_refl eq_refl)
    as [Hc [Ha _]].
  split; [exact Hc | exact Ha].
Defined.

(** ** The summary line and the listing *)

(** C5, as stated, fails.  Revision A heads the results region with
    "Weather Alerts: 0", not with "Current watches, warnings, and
    advisories for NY: 0". *)
Lemma C5_revision_A_summary_differs :
  hd_error (AlertsA.alertsDiv_children
              (final (AlertsA.displayAlerts "NY" no_alerts) pageA_with_error)) =
    Some (h3 "Weather Alerts: 0")
  /\ hd_error (AlertsA.alertsDiv_children
              (final (AlertsA.displayAlerts "NY" no_alerts) pageA_with_error)) <>
    Some (h3 (spec_summary "NY" 0)).
Proof. split; [reflexivity | vm_compute; discriminate]. Qed.

(** C5, amended.  For every location string and every payload whose
    [features] is an array, [displayAlerts] heads the results region with
    an [h3] summary in which the count is the length of [features]: in
    revision B the text is exactly "Current watches, warnings, and
    advisories for {location}: {count}", in revision A it is "Weather
    Alerts: {count}". *)
Theorem C5_summary_amended
  (state : string) (data : payload) (l : list alert)
  (dA : AlertsA.dom) (dB : AlertsB.dom)
  (Hf : features data = Some l) :
  hd_error (AlertsB.alertsDiv_children (final (AlertsB.displayAlerts state data) dB)) =
    Some (h3 ("Current watches, warnings, and advisories for " ++ state ++ ": "
              ++ string_of_nat (length l)))
  /\ hd_error (AlertsA.alertsDiv_children (final (AlertsA.displayAlerts state data) dA)) =
    Some (h3 ("Weather Alerts: " ++ string_of_nat (length l))).
Proof.
  unfold final.
  destruct (forallb has_properties l) eqn:Hl.
  - rewrite (displayAlerts_A_renders state data dA l Hf Hl).
    rewrite (displayAlerts_B_renders state data dB l Hf Hl).
    split; reflexivity.
  - rewrite (displayAlerts_A_bad_alert state data dA l Hf Hl).
    rewrite (displayAlerts_B_bad_alert state data dB l Hf Hl).
    split; reflexivity.
Qed.

Lemma C5_summary_witness :
  features two_alerts = Some [make_alert "Flood Warning"; make_alert "Heat Advisory"]
  /\ hd_error (AlertsB.alertsDiv_children
                 (final (AlertsB.displayAlerts "NY" two_alerts) pageB_with_error)) =
     Some (h3 "Current watches, warnings, and advisories for NY: 2").
Proof.
  split; [reflexivity |].
  exact (proj1 (C5_summary_amended "NY" two_alerts _ pageA_with_error
                  pageB_with_error eq_refl)).
Defined.

(** C7, as stated, fails.  The payload [broken_alerts] has a [features]
    list of length 2, but its second alert has no [properties]: the
    callback throws on it, the [ul] under construction is never
    appended, and the results region holds the summary alone, without a
    single list item. *)
Lemma C7_no_item_when_an_alert_lacks_properties :
  length_of (features broken_alerts) = Returned 2
  /\ AlertsB.alertsDiv_children
       (final (AlertsB.displayAlerts "NY" broken_alerts) pageB_with_error) =
     [h3 "Current watches, warnings, and advisories for NY: 2"]
  /\ ~ (exists items,
          length items = 2
          /\ In (ul items)
               (AlertsB.alertsDiv_children
                  (final (AlertsB.displayAlerts "NY" broken_alerts) pageB_with_error))).
Proof.
  split; [reflexivity |]. split; [reflexivity |].
  intros [items [_ Hin]]. vm_compute in Hin.
  destruct Hin as [H | []]. discriminate H.
Qed.

(** C7, amended.  For a payload whose [features] is a list [l] of alerts
    that all have a [properties] object: the results region holds the
    summary followed,
    when [l] is not empty, by a [ul] with exactly one [li] per alert,
    whose text is the alert's [properties.headline], in the order of
    [l]; and, when [l] is empty, by a [p] with the text "No alerts at
    this time.". *)
Theorem C7_listing
  (state : string) (data : payload) (l : list alert)
  (dA : AlertsA.dom) (dB : AlertsB.dom)
  (Hf : features data = Some l)
  (Hl : forallb has_properties l = true) :
  let items := map (fun a => li (headline_text a)) l in
  let body :=
    match length l with
    | 0 => p "No alerts at this time."
    | S _ => ul items
    end in
  length items = length l
  /\ AlertsA.alertsDiv_children (final (AlertsA.displayAlerts state data) dA) =
     [h3 ("Weather Alerts: " ++ string_of_nat (length l)); body]
  /\ AlertsB.alertsDiv_children (final (AlertsB.displayAlerts state data) dB) =
     [h3 (spec_summary state (length l)); body].
Proof.
  intros items body. unfold final.
  rewrite (displayAlerts_A_renders state data dA l Hf Hl).
  rewrite (displayAlerts_B_renders state data dB l Hf Hl).
  split; [apply length_map |].
  subst body items. destruct l; split; reflexivity.
Qed.

Lemma C7_listing_witness :
  features two_alerts = Some [make_alert "Flood Warning"; make_alert "Heat Advisory"]
  /\ AlertsB.alertsDiv_children
       (final (AlertsB.displayAlerts "NY" two_alerts) pageB_with_error) =
     [h3 "Current watches, warnings, and advisories for NY: 2";
      ul [li "Flood Warning"; li "Heat Advisory"]]
  /\ AlertsB.alertsDiv_children
       (final (AlertsB.displayAlerts "NY" no_alerts) pageB_with_error) =
     [h3 "Current watches, warnings, and advisories for NY: 0";
      p "No alerts at this time."].
Proof.
  split; [reflexivity |]. split.
  - exact (proj2 (proj2 (C7_listing "NY" two_alerts _ pageA_with_error
                           pageB_with_error eq_refl eq_refl))).
  - exact (proj2 (proj2 (C7_listing "NY" no_alerts _ pageA_with_error
                           pageB_with_error eq_refl eq_refl))).
Defined.

(** ** Frame conditions *)

(** Whatever the payload, and even when it throws, [displayAlerts]
    leaves the error region hidden and empty. *)
Lemma displayAlerts_clears_error (state : string) (data : payload)
  (dA : AlertsA.dom) (dB : AlertsB.dom) :
  let dA' := final (AlertsA.displayAlerts state data) dA in
  let dB' := final (AlertsB.displayAlerts state data) dB in
  AlertsA.errorDiv_hidden dA' = true /\ AlertsA.errorDiv_textContent dA' = ""
  /\ AlertsB.errorDiv_display dB' = "none" /\ AlertsB.errorDiv_innerText dB' = "".
Proof.
  unfold final.
  destruct (features data) as [l |] eqn:Hf.
  - destruct (forallb has_properties l) eqn:Hl.
    + rewrite (displayAlerts_A_renders state data dA l Hf Hl).
      rewrite (displayAlerts_B_renders state data dB l Hf Hl).
      repeat split.
    + rewrite (displayAlerts_A_bad_alert state data dA l Hf Hl).
      rewrite (displayAlerts_B_bad_alert state data dB l Hf Hl).
      repeat split.
  - rewrite (displayAlerts_A_no_features state data dA Hf).
    rewrite (displayAlerts_B_no_features state data dB Hf).
    repeat split.
Qed.

(** C8, as stated, fails.  On a payload without [features] the call
    throws before it reaches [stateInput.value = ""]: the input field
    still reads "ny". *)
Lemma C8_input_kept_when_displayAlerts_throws :
  AlertsA.stateInput_value
    (final (AlertsA.displayAlerts "NY" no_features) pageA_with_error) = "ny"
  /\ AlertsA.stateInput_value
    (final (AlertsA.displayAlerts "NY" no_features) pageA_with_error) <> "".
Proof. split; [reflexivity | vm_compute; discriminate]. Qed.

(** C8, amended.  Every call of [displayAlerts], whatever the page
    showed before and whatever the payload, leaves the error region
    hidden with empty text.  A call on a payload whose [features] is an
    array of alerts that all have a [properties] object completes and
    leaves the input field empty.  A call that throws, because
    [features] is absent or because some alert has no [properties],
    leaves the input field as it was. *)
Theorem C8_displayAlerts_clears_error_amended
  (state : string) (data : payload) (dA : AlertsA.dom) (dB : AlertsB.dom) :
  let dA' := final (AlertsA.displayAlerts state data) dA in
  let dB' := final (AlertsB.displayAlerts state data) dB in
  (AlertsA.errorDiv_hidden dA' = true
   /\ AlertsA.errorDiv_textContent dA' = ""
   /\ AlertsB.errorDiv_display dB' = "none"
   /\ AlertsB.errorDiv_innerText dB' = "")
  /\ (renderable data = true ->
      completes (AlertsA.displayAlerts state data) dA
      /\ AlertsA.stateInput_value dA' = ""
      /\ completes (AlertsB.displayAlerts state data) dB
      /\ AlertsB.stateInput_value dB' = "")
  /\ (features data = None ->
      AlertsA.stateInput_value dA' = AlertsA.stateInput_value dA
      /\ AlertsB.stateInput_value dB' = AlertsB.stateInput_value dB)
  /\ (forall l, features data = Some l -> forallb has_properties l = false ->
      AlertsA.stateInput_value dA' = AlertsA.stateInput_value dA
      /\ AlertsB.stateInput_value dB' = AlertsB.stateInput_value dB).
Proof.
  intros dA' dB'. split; [apply displayAlerts_clears_error |].
  subst dA' dB'. unfold final. split; [| split].
  - unfold renderable, completes. intros Hdata.
    destruct (features data) as [l |] eqn:Hf; [| discriminate].
    rewrite (displayAlerts_A_renders state data dA l Hf Hdata).
    rewrite (displayAlerts_B_renders state data dB l Hf Hdata).
    split; [eexists; eexists; reflexivity |].
    split; [reflexivity |].
    split; [eexists; eexists; reflexivity | reflexivity].
  - intros Hf.
    rewrite (displayAlerts_A_no_features state data dA Hf).
    rewrite (displayAlerts_B_no_features state data dB Hf).
    split; reflexivity.
  - intros l Hf Hl.
    rewrite (displayAlerts_A_bad_alert state data dA l Hf Hl).
    rewrite (displayAlerts_B_bad_alert state data dB l Hf Hl).
    split; reflexivity.
Qed.

Lemma C8_displayAlerts_witness :
  renderable two_alerts = true
  /\ AlertsA.errorDiv_hidden
       (final (AlertsA.displayAlerts "NY" two_alerts) pageA_with_error) = true
  /\ AlertsA.errorDiv_textContent
       (final (AlertsA.displayAlerts "NY" two_alerts) pageA_with_error) = ""
  /\ AlertsA.stateInput_value
       (final (AlertsA.displayAlerts "NY" two_alerts) pageA_with_error) = ""
  /\ features no_features = None
  /\ AlertsB.stateInput_value
       (final (AlertsB.displayAlerts "NY" no_features) pageB_with_error) = "ny".
Proof.
  pose proof (C8_displayAlerts_clears_error_amended "NY" two_alerts
                pageA_with_error pageB_with_error) as [[Hh [Ht _]] [Hr _]].
  pose proof (C8_displayAlerts_clears_error_amended "NY" no_features
                pageA_with_error pageB_with_error) as [_ [_ [Hn _]]].
  split; [reflexivity |].
  split; [exact Hh |].
  split; [exact Ht |].
  split; [exact (proj1 (proj2 (Hr eq_refl))) |].
  split; [reflexivity |].
  exact (proj2 (Hn eq_refl)).
Defined.

(** C10.  [showError] leaves the input field as it was, for every
    message and every page, in both revisions. *)
Theorem C10_showError_keeps_input (msg : string) (dA : AlertsA.dom) (dB : AlertsB.dom) :
  AlertsA.stateInput_value (final (AlertsA.showError msg) dA) =
    AlertsA.stateInput_value dA
  /\ AlertsB.stateInput_value (final (AlertsB.showError msg) dB) =
    AlertsB.stateInput_value dB.
Proof. split; reflexivity. Qed.

(** ** Transport failures and the two fetchers *)

(** C6.  When the request is rejected, the fetcher fails with the very
    error of the rejection, not a new one, so with its message; one
    request was issued. *)
Theorem C6_rejection_passes_through
  (net : network payload) (state : jsarg) (e : exn) (calls : list string)
  (Hstate : falsy state = false)
  (Hrej : net (AlertsB.weatherApi ++ to_template state)%string = Threw e) :
  AlertsB.fetchWeatherAlerts net state calls =
    (Threw e, calls ++ [(AlertsB.weatherApi ++ to_template state)%string])
  /\ AlertsA.fetchWeatherAlerts net state calls =
    (Threw e, calls ++ [(AlertsA.weatherApi ++ to_template state)%string]).
Proof.
  rewrite fetchWeatherAlerts_B_unfold.
  rewrite (fetchWeatherAlerts_A_truthy net state calls Hstate).
  change AlertsB.weatherApi with AlertsA.weatherApi in Hrej.
  rewrite Hrej. split; reflexivity.
Qed.

Lemma C6_rejection_witness :
  falsy (Str "NY") = false
  /\ net_down (B := payload) "https://api.weather.gov/alerts/active?area=NY" =
     Threw (Error "Network error")
  /\ AlertsB.fetchWeatherAlerts net_down (Str "NY") [] =
     (Threw (Error "Network error"),
      ["https://api.weather.gov/alerts/active?area=NY"]).
Proof.
  split; [reflexivity |]. split; [reflexivity |].
  exact (proj1 (C6_rejection_passes_through net_down (Str "NY")
                  (Error "Network error") [] eq_refl eq_refl)).
Defined.

(** C9.  The fetcher of revision A and the fetcher of revision B, which
    wraps the same body in a [try] whose [catch] throws the error again,
    agree for every state value, every behaviour of the network and every
    request history: they return the same payload or throw the same
    error, after the same requests. *)
Theorem C9_fetchers_agree (net : network payload) (state : jsarg) (calls : list string) :
  AlertsA.fetchWeatherAlerts net state calls =
  AlertsB.fetchWeatherAlerts net state calls.
Proof. symmetry. apply fetchWeatherAlerts_B_unfold. Qed.

(** * Further properties of the script *)

(** ** Upper case *)

Lemma toUpperCase_empty (s : string) : toUpperCase s = "" <-> s = "".
Proof. destruct s; simpl; split; intros H; try reflexivity; discriminate H. Qed.

Lemma toUpperCase_truthy (s : string) :
  s <> "" -> falsy (Str (toUpperCase s)) = false.
Proof. destruct s; [congruence | reflexivity]. Qed.

(** ** One click, step by step *)

Lemma one_more_request (calls : list string) (url : string) :
  (length (calls ++ [url]) =? length calls)%nat = false.
Proof. apply Nat.eqb_neq. rewrite length_app. simpl. lia. Qed.

Section ClickSteps.

Variables (net : network payload) (calls : list string).

(** With an empty input field the listener asks nothing of the network
    and shows the request for a state abbreviation. *)
Lemma onClick_A_no_state (meanwhile : AlertsA.dom -> AlertsA.dom) (d : AlertsA.dom) :
  AlertsA.stateInput_value d = "" ->
  ClickA.onClick net meanwhile (d, calls) =
  (Returned tt,
   (final (AlertsA.showError "Please enter a state abbreviation.") d, calls)).
Proof.
  intros H.
  unfold ClickA.onClick, bind, try_catch, on_page, awaiting,
    ClickA.stateInput_get_value.
  cbn [fst snd]. rewrite H. cbn [toUpperCase].
  rewrite fetchWeatherAlerts_A_falsy by reflexivity.
  rewrite Nat.eqb_refl. reflexivity.
Qed.

Lemma onClick_B_no_state (meanwhile : AlertsB.dom -> AlertsB.dom) (d : AlertsB.dom) :
  AlertsB.stateInput_value d = "" ->
  ClickB.onClick net meanwhile (d, calls) =
  (Returned tt,
   (final (AlertsB.showError "Please enter a state abbreviation.") d, calls)).
Proof.
  intros H.
  unfold ClickB.onClick, bind, try_catch, on_page, awaiting,
    ClickB.stateInput_get_value.
  cbn [fst snd]. rewrite H. cbn [toUpperCase].
  rewrite fetchWeatherAlerts_B_unfold, fetchWeatherAlerts_A_falsy by reflexivity.
  rewrite Nat.eqb_refl. reflexivity.
Qed.

(** With a state typed in, the listener requests the alerts of the state
    in upper case and, on the page as it is when the answer comes, renders
    the body or shows the message of what was thrown, by the fetcher or
    by [displayAlerts] itself. *)
Lemma onClick_A_with_state (meanwhile : AlertsA.dom -> AlertsA.dom) (d : AlertsA.dom) :
  AlertsA.stateInput_value d <> "" ->
  let state := toUpperCase (AlertsA.stateInput_value d) in
  let url := (AlertsA.weatherApi ++ state)%string in
  ClickA.onClick net meanwhile (d, calls) =
  (Returned tt,
   (match settle (net url) with
    | Returned data =>
        match AlertsA.displayAlerts state data (meanwhile d) with
        | (Returned _, d') => d'
        | (Threw e, d') => final (AlertsA.showError (message e)) d'
        end
    | Threw e => final (AlertsA.showError (message e)) (meanwhile d)
    end,
    calls ++ [url])).
Proof.
  intros H state url.
  unfold ClickA.onClick, bind, try_catch, on_page, awaiting,
    ClickA.stateInput_get_value.
  cbn [fst snd]. fold state.
  rewrite (fetchWeatherAlerts_A_truthy net (Str state) calls
             (toUpperCase_truthy _ H)).
  cbn [to_template]. fold url. rewrite one_more_request.
  destruct (settle (net url)) as [data | e]; [| reflexivity].
  cbn [fst snd].
  destruct (AlertsA.displayAlerts state data (meanwhile d)) as [[[] | e] d'];
    reflexivity.
Qed.

Lemma onClick_B_with_state (meanwhile : AlertsB.dom -> AlertsB.dom) (d : AlertsB.dom) :
  AlertsB.stateInput_value d <> "" ->
  let state := toUpperCase (AlertsB.stateInput_value d) in
  let url := (AlertsB.weatherApi ++ state)%string in
  ClickB.onClick net meanwhile (d, calls) =
  (Returned tt,
   (match settle (net url) with
    | Returned data =>
        match AlertsB.displayAlerts state data (meanwhile d) with
        | (Returned _, d') => d'
        | (Threw e, d') => final (AlertsB.showError (message e)) d'
        end
    | Threw e => final (AlertsB.showError (message e)) (meanwhile d)
    end,
    calls ++ [url])).
Proof.
  intros H state url.
  unfold ClickB.onClick, bind, try_catch, on_page, awaiting,
    ClickB.stateInput_get_value.
  cbn [fst snd]. fold state.
  rewrite fetchWeatherAlerts_B_unfold.
  rewrite (fetchWeatherAlerts_A_truthy net (Str state) calls
             (toUpperCase_truthy _ H)).
  cbn [to_template]. change AlertsA.weatherApi with AlertsB.weatherApi.
  fold url. rewrite one_more_request.
  destruct (settle (net url)) as [data | e]; [| reflexivity].
  cbn [fst snd].
  destruct (AlertsB.displayAlerts state data (meanwhile d)) as [[[] | e] d'];
    reflexivity.
Qed.

End ClickSteps.

(** ** The fetcher, beyond its failures *)

(** X1.  For a state that is not empty and a response that is [ok], the
    fetcher hands over what [response.json()] settles to, untouched: the
    parsed body as it is, or the error of the parse; it has issued the one
    request for [weatherApi] followed by the state. *)
Theorem fetchWeatherAlerts_hands_over_body
  (net : network payload) (state : jsarg) (r : response payload) (calls : list string)
  (Hstate : falsy state = false)
  (Hnet : net (AlertsA.weatherApi ++ to_template state)%string = Returned r)
  (Hok : ok r = true) :
  AlertsA.fetchWeatherAlerts net state calls =
    (json r, calls ++ [(AlertsA.weatherApi ++ to_template state)%string])
  /\ AlertsB.fetchWeatherAlerts net state calls =
    (json r, calls ++ [(AlertsB.weatherApi ++ to_template state)%string]).
Proof.
  rewrite fetchWeatherAlerts_B_unfold.
  rewrite (fetchWeatherAlerts_A_truthy net state calls Hstate).
  rewrite Hnet. unfold settle. rewrite Hok. split; reflexivity.
Qed.

Lemma fetchWeatherAlerts_hands_over_body_witness :
  AlertsA.fetchWeatherAlerts (net_status 200 two_alerts) (Str "NY") [] =
  (Returned two_alerts, ["https://api.weather.gov/alerts/active?area=NY"]).
Proof.
  exact (proj1 (fetchWeatherAlerts_hands_over_body (net_status 200 two_alerts)
                  (Str "NY") _ [] eq_refl eq_refl eq_refl)).
Defined.

(** X2.  Whatever the network answers, the fetcher keeps the requests
    already issued and adds none for an empty, [null] or [undefined]
    state and exactly one, for [weatherApi] followed by the state,
    otherwise: a failure is never followed by a second attempt. *)
Theorem fetchWeatherAlerts_one_request_at_most
  (net : network payload) (state : jsarg) (calls : list string) :
  let url := (AlertsA.weatherApi ++ to_template state)%string in
  snd (AlertsA.fetchWeatherAlerts net state calls) =
    (if falsy state then calls else calls ++ [url])
  /\ snd (AlertsB.fetchWeatherAlerts net state calls) =
    (if falsy state then calls else calls ++ [url]).
Proof.
  intros url. rewrite fetchWeatherAlerts_B_unfold.
  destruct (falsy state) eqn:Hs.
  - rewrite (fetchWeatherAlerts_A_falsy net state calls Hs). split; reflexivity.
  - rewrite (fetchWeatherAlerts_A_truthy net state calls Hs). split; reflexivity.
Qed.

(** X3.  The fetcher never reads [response.status]: two networks whose
    answers differ at most in the status give the same outcome and the
    same requests. *)
Theorem fetchWeatherAlerts_ignores_status
  (net1 net2 : network payload) (state : jsarg) (calls : list string)
  (Hsame : forall url, same_but_status (net1 url) (net2 url)) :
  AlertsA.fetchWeatherAlerts net1 state calls =
    AlertsA.fetchWeatherAlerts net2 state calls
  /\ AlertsB.fetchWeatherAlerts net1 state calls =
    AlertsB.fetchWeatherAlerts net2 state calls.
Proof.
  rewrite !fetchWeatherAlerts_B_unfold.
  assert (H : AlertsA.fetchWeatherAlerts net1 state calls =
              AlertsA.fetchWeatherAlerts net2 state calls).
  { destruct (falsy state) eqn:Hs.
    - rewrite !fetchWeatherAlerts_A_falsy by assumption. reflexivity.
    - rewrite !fetchWeatherAlerts_A_truthy by assumption.
      specialize (Hsame (AlertsA.weatherApi ++ to_template state)%string).
      unfold same_but_status in Hsame. unfold settle.
      destruct (net1 _) as [r1 | e1], (net2 _) as [r2 | e2];
        try contradiction.
      + destruct Hsame as [Hok Hjson]. rewrite Hok, Hjson. reflexivity.
      + subst e2. reflexivity. }
  split; exact H.
Qed.

Lemma fetchWeatherAlerts_ignores_status_witness :
  AlertsA.fetchWeatherAlerts (net_status 404 no_alerts) (Str "ZZ") [] =
  AlertsA.fetchWeatherAlerts (net_status 500 no_alerts) (Str "ZZ") [].
Proof.
  refine (proj1 (fetchWeatherAlerts_ignores_status (net_status 404 no_alerts)
                   (net_status 500 no_alerts) (Str "ZZ") [] _)).
  intros url. split; reflexivity.
Defined.

(** ** The renderer, beyond a single call *)

(** X4.  On a payload it can render, [displayAlerts] replaces the page
    altogether: nothing of the page before (earlier alerts, an error on
    display, the text of the input field) is left in the page after, so
    that rendering over any two pages gives the same page. *)
Theorem displayAlerts_forgets_previous_page
  (state : string) (data : payload)
  (dA dA' : AlertsA.dom) (dB dB' : AlertsB.dom)
  (Hdata : renderable data = true) :
  final (AlertsA.displayAlerts state data) dA =
    final (AlertsA.displayAlerts state data) dA'
  /\ final (AlertsB.displayAlerts state data) dB =
    final (AlertsB.displayAlerts state data) dB'.
Proof.
  unfold renderable in Hdata.
  destruct (features data) as [l |] eqn:Hf; [| discriminate].
  unfold final.
  rewrite (displayAlerts_A_renders state data dA l Hf Hdata).
  rewrite (displayAlerts_A_renders state data dA' l Hf Hdata).
  rewrite (displayAlerts_B_renders state data dB l Hf Hdata).
  rewrite (displayAlerts_B_renders state data dB' l Hf Hdata).
  split; reflexivity.
Qed.

Lemma displayAlerts_forgets_previous_page_witness :
  final (AlertsB.displayAlerts "NY" two_alerts) pageB_with_error =
  final (AlertsB.displayAlerts "NY" two_alerts) pageB_with_alerts.
Proof.
  exact (proj2 (displayAlerts_forgets_previous_page "NY" two_alerts
                  pageA_with_error pageA_with_alerts
                  pageB_with_error pageB_with_alerts eq_refl)).
Defined.

(** X5.  When [features] is an array in which some alert, wherever it
    stands, has no [properties] field, [displayAlerts] throws the [TypeError]
    of reading [headline] of [undefined] and leaves a half rendered
    page: the summary with the full count and not a single headline, the
    error region hidden and empty, the input field as it was. *)
Theorem displayAlerts_half_rendered
  (state : string) (data : payload) (l : list alert)
  (dA : AlertsA.dom) (dB : AlertsB.dom)
  (Hf : features data = Some l)
  (Hl : forallb has_properties l = false) :
  AlertsA.displayAlerts state data dA =
    (Threw (TypeError "Cannot read properties of undefined (reading 'headline')"),
     {| AlertsA.stateInput_value := AlertsA.stateInput_value dA;
        AlertsA.alertsDiv_children :=
          [h3 ("Weather Alerts: " ++ string_of_nat (length l))];
        AlertsA.errorDiv_hidden := true;
        AlertsA.errorDiv_textContent := "" |})
  /\ AlertsB.displayAlerts state data dB =
    (Threw (TypeError "Cannot read properties of undefined (reading 'headline')"),
     {| AlertsB.stateInput_value := AlertsB.stateInput_value dB;
        AlertsB.alertsDiv_children :=
          [h3 ("Current watches, warnings, and advisories for " ++ state ++ ": "
               ++ string_of_nat (length l))];
        AlertsB.errorDiv_display := "none";
        AlertsB.errorDiv_innerText := "" |}).
Proof.
  rewrite (displayAlerts_A_bad_alert state data dA l Hf Hl).
  rewrite (displayAlerts_B_bad_alert state data dB l Hf Hl).
  split; reflexivity.
Qed.

Lemma displayAlerts_half_rendered_witness :
  AlertsB.alertsDiv_children
    (final (AlertsB.displayAlerts "NY" broken_alerts) pageB_with_error) =
  [h3 "Current watches, warnings, and advisories for NY: 2"].
Proof.
  unfold final.
  rewrite (proj2 (displayAlerts_half_rendered "NY" broken_alerts _
                    pageA_with_error pageB_with_error eq_refl eq_refl)).
  reflexivity.
Defined.

(** ** The click listener *)

(** X6.  A click never ends in an unhandled error: whatever the page,
    the network's answer and what happened to the page while the request
    was pending, the listener completes; every error of the fetcher and of
    [displayAlerts] is caught and shown. *)
Theorem onClick_never_throws
  (net : network payload) (calls : list string)
  (meanwhileA : AlertsA.dom -> AlertsA.dom) (dA : AlertsA.dom)
  (meanwhileB : AlertsB.dom -> AlertsB.dom) (dB : AlertsB.dom) :
  completes (ClickA.onClick net meanwhileA) (dA, calls)
  /\ completes (ClickB.onClick net meanwhileB) (dB, calls).
Proof.
  unfold completes. split.
  - destruct (string_dec (AlertsA.stateInput_value dA) "") as [H | H].
    + rewrite (onClick_A_no_state net calls meanwhileA dA H).
      eexists; eexists; reflexivity.
    + rewrite (onClick_A_with_state net calls meanwhileA dA H).
      eexists; eexists; reflexivity.
  - destruct (string_dec (AlertsB.stateInput_value dB) "") as [H | H].
    + rewrite (onClick_B_no_state net calls meanwhileB dB H).
      eexists; eexists; reflexivity.
    + rewrite (onClick_B_with_state net calls meanwhileB dB H).
      eexists; eexists; reflexivity.
Qed.

(** X7.  A click issues no request when the input field is empty and
    otherwise exactly one, for [weatherApi] followed by the text of the
    input field in upper case. *)
Theorem onClick_requests_upper_case
  (net : network payload) (calls : list string)
  (meanwhileA : AlertsA.dom -> AlertsA.dom) (dA : AlertsA.dom)
  (meanwhileB : AlertsB.dom -> AlertsB.dom) (dB : AlertsB.dom) :
  snd (final (ClickA.onClick net meanwhileA) (dA, calls)) =
    (if (AlertsA.stateInput_value dA =? "")%string then calls
     else calls ++ [(AlertsA.weatherApi
                     ++ toUpperCase (AlertsA.stateInput_value dA))%string])
  /\ snd (final (ClickB.onClick net meanwhileB) (dB, calls)) =
    (if (AlertsB.stateInput_value dB =? "")%string then calls
     else calls ++ [(AlertsB.weatherApi
                     ++ toUpperCase (AlertsB.stateInput_value dB))%string]).
Proof.
  unfold final. split.
  - destruct (String.eqb_spec (AlertsA.stateInput_value dA) "") as [H | H].
    + rewrite (onClick_A_no_state net calls meanwhileA dA H). reflexivity.
    + rewrite (onClick_A_with_state net calls meanwhileA dA H). reflexivity.
  - destruct (String.eqb_spec (AlertsB.stateInput_value dB) "") as [H | H].
    + rewrite (onClick_B_no_state net calls meanwhileB dB H). reflexivity.
    + rewrite (onClick_B_with_state net calls meanwhileB dB H). reflexivity.
Qed.

(** X8.  A click on an empty input field shows "Please enter a state
    abbreviation." in the error region, without any request.  Revision A
    empties the results region; revision B leaves in it whatever it
    held. *)
Theorem onClick_empty_input
  (net : network payload) (calls : list string)
  (meanwhileA : AlertsA.dom -> AlertsA.dom) (dA : AlertsA.dom)
  (meanwhileB : AlertsB.dom -> AlertsB.dom) (dB : AlertsB.dom)
  (HA : AlertsA.stateInput_value dA = "")
  (HB : AlertsB.stateInput_value dB = "") :
  ClickA.onClick net meanwhileA (dA, calls) =
    (Returned tt,
     ({| AlertsA.stateInput_value := "";
         AlertsA.alertsDiv_children := [];
         AlertsA.errorDiv_hidden := false;
         AlertsA.errorDiv_textContent := "Please enter a state abbreviation." |},
      calls))
  /\ ClickB.onClick net meanwhileB (dB, calls) =
    (Returned tt,
     ({| AlertsB.stateInput_value := "";
         AlertsB.alertsDiv_children := AlertsB.alertsDiv_children dB;
         AlertsB.errorDiv_display := "block";
         AlertsB.errorDiv_innerText := "Please enter a state abbreviation." |},
      calls)).
Proof.
  rewrite (onClick_A_no_state net calls meanwhileA dA HA).
  rewrite (onClick_B_no_state net calls meanwhileB dB HB).
  unfold final. simpl. rewrite HA, HB. split; reflexivity.
Qed.

Lemma onClick_empty_input_witness :
  ClickB.onClick net_down (typingB "tx") (typingB "" pageB_with_alerts, []) =
  (Returned tt,
   ({| AlertsB.stateInput_value := "";
       AlertsB.alertsDiv_children :=
         [h3 "Current watches, warnings, and advisories for TX: 0";
          p "No alerts at this time."];
       AlertsB.errorDiv_display := "block";
       AlertsB.errorDiv_innerText := "Please enter a state abbreviation." |},
    [])).
Proof.
  exact (proj2 (onClick_empty_input net_down [] (typingA "tx")
                  (typingA "" pageA_with_alerts) (typingB "tx")
                  (typingB "" pageB_with_alerts) eq_refl eq_refl)).
Defined.

(** X9.  A click with a state typed in, answered by an [ok] response
    whose body is an array [l] of alerts with their [properties]: the page
    shows the summary (for the state in upper case, in revision B) and
    the listing of [l], the error region is hidden and empty, and the
    input field is emptied, whatever was typed while the request was
    pending. *)
Theorem onClick_shows_alerts
  (net : network payload) (calls : list string) (typed : string)
  (r : response payload) (data : payload) (l : list alert)
  (meanwhileA : AlertsA.dom -> AlertsA.dom) (dA : AlertsA.dom)
  (meanwhileB : AlertsB.dom -> AlertsB.dom) (dB : AlertsB.dom)
  (Htyped : (typed =? "")%string = false)
  (HA : AlertsA.stateInput_value dA = typed)
  (HB : AlertsB.stateInput_value dB = typed)
  (Hnet : net (AlertsA.weatherApi ++ toUpperCase typed)%string = Returned r)
  (Hok : ok r = true)
  (Hjson : json r = Returned data)
  (Hf : features data = Some l)
  (Hl : forallb has_properties l = true) :
  ClickA.onClick net meanwhileA (dA, calls) =
    (Returned tt,
     ({| AlertsA.stateInput_value := "";
         AlertsA.alertsDiv_children :=
           [h3 ("Weather Alerts: " ++ string_of_nat (length l)); listing l];
         AlertsA.errorDiv_hidden := true;
         AlertsA.errorDiv_textContent := "" |},
      calls ++ [(AlertsA.weatherApi ++ toUpperCase typed)%string]))
  /\ ClickB.onClick net meanwhileB (dB, calls) =
    (Returned tt,
     ({| AlertsB.stateInput_value := "";
         AlertsB.alertsDiv_children :=
           [h3 ("Current watches, warnings, and advisories for "
                ++ toUpperCase typed ++ ": " ++ string_of_nat (length l));
            listing l];
         AlertsB.errorDiv_display := "none";
         AlertsB.errorDiv_innerText := "" |},
      calls ++ [(AlertsB.weatherApi ++ toUpperCase typed)%string])).
Proof.
  apply String.eqb_neq in Htyped. subst typed.
  rewrite (onClick_A_with_state net calls meanwhileA dA Htyped).
  rewrite <- HB in Htyped.
  rewrite (onClick_B_with_state net calls meanwhileB dB Htyped).
  rewrite HB. change AlertsB.weatherApi with AlertsA.weatherApi.
  cbv zeta. rewrite Hnet. unfold settle. rewrite Hok, Hjson.
  rewrite (displayAlerts_A_renders _ data (meanwhileA dA) l Hf Hl).
  rewrite (displayAlerts_B_renders _ data (meanwhileB dB) l Hf Hl).
  split; reflexivity.
Qed.

Lemma onClick_shows_alerts_witness :
  ClickB.onClick (net_status 200 two_alerts) (typingB "tx") (pageB_with_error, []) =
  (Returned tt,
   ({| AlertsB.stateInput_value := "";
       AlertsB.alertsDiv_children :=
         [h3 "Current watches, warnings, and advisories for NY: 2";
          ul [li "Flood Warning"; li "Heat Advisory"]];
       AlertsB.errorDiv_display := "none";
       AlertsB.errorDiv_innerText := "" |},
    ["https://api.weather.gov/alerts/active?area=NY"])).
Proof.
  exact (proj2 (onClick_shows_alerts (net_status 200 two_alerts) [] "ny" _
                  two_alerts _ (typingA "tx") pageA_with_error
                  (typingB "tx") pageB_with_error
                  eq_refl eq_refl eq_refl eq_refl eq_refl eq_refl eq_refl eq_refl)).
Defined.

(** X10.  A click with a state typed in whose request fails (the
    network rejects it, the response is not [ok], or its body does not
    parse): the error region shows the message of the error and the input
    field keeps its text.  Revision A empties the results region;
    revision B leaves in it what the page held when the answer came, so
    that alerts of an earlier request stay on display beside the
    error. *)
Theorem onClick_shows_fetch_error
  (net : network payload) (calls : list string) (typed : string) (e : exn)
  (meanwhileA : AlertsA.dom -> AlertsA.dom) (dA : AlertsA.dom)
  (meanwhileB : AlertsB.dom -> AlertsB.dom) (dB : AlertsB.dom)
  (Htyped : (typed =? "")%string = false)
  (HA : AlertsA.stateInput_value dA = typed)
  (HB : AlertsB.stateInput_value dB = typed)
  (Hnet : settle (net (AlertsA.weatherApi ++ toUpperCase typed)%string) = Threw e) :
  ClickA.onClick net meanwhileA (dA, calls) =
    (Returned tt,
     ({| AlertsA.stateInput_value := AlertsA.stateInput_value (meanwhileA dA);
         AlertsA.alertsDiv_children := [];
         AlertsA.errorDiv_hidden := false;
         AlertsA.errorDiv_textContent := message e |},
      calls ++ [(AlertsA.weatherApi ++ toUpperCase typed)%string]))
  /\ ClickB.onClick net meanwhileB (dB, calls) =
    (Returned tt,
     ({| AlertsB.stateInput_value := AlertsB.stateInput_value (meanwhileB dB);
         AlertsB.alertsDiv_children := AlertsB.alertsDiv_children (meanwhileB dB);
         AlertsB.errorDiv_display := "block";
         AlertsB.errorDiv_innerText := message e |},
      calls ++ [(AlertsB.weatherApi ++ toUpperCase typed)%string])).
Proof.
  apply String.eqb_neq in Htyped. subst typed.
  rewrite (onClick_A_with_state net calls meanwhileA dA Htyped).
  rewrite <- HB in Htyped.
  rewrite (onClick_B_with_state net calls meanwhileB dB Htyped).
  rewrite HB. change AlertsB.weatherApi with AlertsA.weatherApi.
  cbv zeta. rewrite Hnet. split; reflexivity.
Qed.

Lemma onClick_shows_fetch_error_witness :
  ClickB.onClick (net_status 500 no_alerts) (typingB "tx") (pageB_with_alerts, []) =
  (Returned tt,
   ({| AlertsB.stateInput_value := "tx";
       AlertsB.alertsDiv_children :=
         [h3 "Current watches, warnings, and advisories for TX: 0";
          p "No alerts at this time."];
       AlertsB.errorDiv_display := "block";
       AlertsB.errorDiv_innerText :=
         "Failed to fetch data. Please check your state code." |},
    ["https://api.weather.gov/alerts/active?area=NY"])).
Proof.
  exact (proj2 (onClick_shows_fetch_error (net_status 500 no_alerts) [] "ny" _
                  (typingA "tx") pageA_with_alerts (typingB "tx") pageB_with_alerts
                  eq_refl eq_refl eq_refl eq_refl)).
Defined.

(** X11.  A click with a state typed in, answered by an [ok] response
    whose body [displayAlerts] cannot render, [features] being absent or
    some alert having no [properties] field: the [TypeError] thrown by
    [displayAlerts] is caught by the same handler as the errors of the
    fetcher, and its message, the engine's and not one of the script's,
    is what the error region shows.  The input field keeps its text.
    The results region is empty in revision A; in revision B it holds the
    summary when [features] is an array, and nothing otherwise. *)
Theorem onClick_shows_render_error
  (net : network payload) (calls : list string) (typed : string) (data : payload)
  (meanwhileA : AlertsA.dom -> AlertsA.dom) (dA : AlertsA.dom)
  (meanwhileB : AlertsB.dom -> AlertsB.dom) (dB : AlertsB.dom)
  (Htyped : (typed =? "")%string = false)
  (HA : AlertsA.stateInput_value dA = typed)
  (HB : AlertsB.stateInput_value dB = typed)
  (Hnet : settle (net (AlertsA.weatherApi ++ toUpperCase typed)%string) = Returned data)
  (Hdata : renderable data = false) :
  let shown :=
    match features data with
    | Some _ => "Cannot read properties of undefined (reading 'headline')"
    | None => "Cannot read properties of undefined (reading 'length')"
    end in
  ClickA.onClick net meanwhileA (dA, calls) =
    (Returned tt,
     ({| AlertsA.stateInput_value := AlertsA.stateInput_value (meanwhileA dA);
         AlertsA.alertsDiv_children := [];
         AlertsA.errorDiv_hidden := false;
         AlertsA.errorDiv_textContent := shown |},
      calls ++ [(AlertsA.weatherApi ++ toUpperCase typed)%string]))
  /\ ClickB.onClick net meanwhileB (dB, calls) =
    (Returned tt,
     ({| AlertsB.stateInput_value := AlertsB.stateInput_value (meanwhileB dB);
         AlertsB.alertsDiv_children :=
           match features data with
           | Some l =>
               [h3 ("Current watches, warnings, and advisories for "
                    ++ toUpperCase typed ++ ": " ++ string_of_nat (length l))]
           | None => []
           end;
         AlertsB.errorDiv_display := "block";
         AlertsB.errorDiv_innerText := shown |},
      calls ++ [(AlertsB.weatherApi ++ toUpperCase typed)%string])).
Proof.
  apply String.eqb_neq in Htyped. subst typed.
  rewrite (onClick_A_with_state net calls meanwhileA dA Htyped).
  rewrite <- HB in Htyped.
  rewrite (onClick_B_with_state net calls meanwhileB dB Htyped).
  rewrite HB. change AlertsB.weatherApi with AlertsA.weatherApi.
  cbv zeta. rewrite Hnet.
  unfold renderable in Hdata.
  destruct (features data) as [l |] eqn:Hf.
  - rewrite (displayAlerts_A_bad_alert _ data (meanwhileA dA) l Hf Hdata).
    rewrite (displayAlerts_B_bad_alert _ data (meanwhileB dB) l Hf Hdata).
    split; reflexivity.
  - rewrite (displayAlerts_A_no_features _ data (meanwhileA dA) Hf).
    rewrite (displayAlerts_B_no_features _ data (meanwhileB dB) Hf).
    split; reflexivity.
Qed.

Lemma onClick_shows_render_error_witness :
  ClickB.onClick (net_status 200 broken_alerts) (typingB "tx") (pageB_with_error, []) =
  (Returned tt,
   ({| AlertsB.stateInput_value := "tx";
       AlertsB.alertsDiv_children :=
         [h3 "Current watches, warnings, and advisories for NY: 2"];
       AlertsB.errorDiv_display := "block";
       AlertsB.errorDiv_innerText :=
         "Cannot read properties of undefined (reading 'headline')" |},
    ["https://api.weather.gov/alerts/active?area=NY"])).
Proof.
  exact (proj2 (onClick_shows_render_error (net_status 200 broken_alerts) [] "ny"
                  broken_alerts (typingA "tx") pageA_with_error
                  (typingB "tx") pageB_with_error
                  eq_refl eq_refl eq_refl eq_refl eq_refl)).
Defined.

(** X12.  In revision A a click leaves at most one of the two regions
    on display: whatever the page before, the answer of the network and
    what happened to the page while the request was pending, the results
    region is empty or the error region is hidden. *)
Theorem onClick_A_keeps_regions_exclusive
  (net : network payload) (calls : list string)
  (meanwhile : AlertsA.dom -> AlertsA.dom) (d : AlertsA.dom) :
  let d' := fst (final (ClickA.onClick net meanwhile) (d, calls)) in
  AlertsA.results_populated d' && AlertsA.error_visible d' = false.
Proof.
  unfold final.
  destruct (string_dec (AlertsA.stateInput_value d) "") as [H | H].
  - rewrite (onClick_A_no_state net calls meanwhile d H). reflexivity.
  - rewrite (onClick_A_with_state net calls meanwhile d H).
    cbv zeta. cbn [fst snd].
    destruct (settle _) as [data | e]; [| reflexivity].
    pose proof (exclusive_after_displayAlerts_A
                  (toUpperCase (AlertsA.stateInput_value d)) data (meanwhile d)) as Hx.
    unfold final in Hx.
    destruct (AlertsA.displayAlerts _ data (meanwhile d)) as [[[] | e] d'].
    + cbn [snd] in Hx. rewrite Hx. apply andb_false_r.
    + reflexivity.
Qed.

(** X13.  Two clicks in a row.  Once a click has rendered alerts it has
    emptied the input field, so a second click, with nothing typed in
    between, issues no request and shows "Please enter a state
    abbreviation.": in revision A the alerts just rendered are wiped, in
    revision B they stay on display beside the error. *)
Theorem onClick_twice
  (net net' : network payload) (calls : list string) (typed : string)
  (r : response payload) (data : payload) (l : list alert)
  (meanwhileA meanwhileA' : AlertsA.dom -> AlertsA.dom) (dA : AlertsA.dom)
  (meanwhileB meanwhileB' : AlertsB.dom -> AlertsB.dom) (dB : AlertsB.dom)
  (Htyped : (typed =? "")%string = false)
  (HA : AlertsA.stateInput_value dA = typed)
  (HB : AlertsB.stateInput_value dB = typed)
  (Hnet : net (AlertsA.weatherApi ++ toUpperCase typed)%string = Returned r)
  (Hok : ok r = true)
  (Hjson : json r = Returned data)
  (Hf : features data = Some l)
  (Hl : forallb has_properties l = true) :
  ClickA.onClick net' meanwhileA' (final (ClickA.onClick net meanwhileA) (dA, calls)) =
    (Returned tt,
     ({| AlertsA.stateInput_value := "";
         AlertsA.alertsDiv_children := [];
         AlertsA.errorDiv_hidden := false;
         AlertsA.errorDiv_textContent := "Please enter a state abbreviation." |},
      calls ++ [(AlertsA.weatherApi ++ toUpperCase typed)%string]))
  /\ ClickB.onClick net' meanwhileB' (final (ClickB.onClick net meanwhileB) (dB, calls)) =
    (Returned tt,
     ({| AlertsB.stateInput_value := "";
         AlertsB.alertsDiv_children :=
           [h3 ("Current watches, warnings, and advisories for "
                ++ toUpperCase typed ++ ": " ++ string_of_nat (length l));
            listing l];
         AlertsB.errorDiv_display := "block";
         AlertsB.errorDiv_innerText := "Please enter a state abbreviation." |},
      calls ++ [(AlertsB.weatherApi ++ toUpperCase typed)%string])).
Proof.
  apply String.eqb_neq in Htyped. subst typed. unfold final.
  rewrite (onClick_A_with_state net calls meanwhileA dA Htyped).
  rewrite <- HB in Htyped.
  rewrite (onClick_B_with_state net calls meanwhileB dB Htyped).
  rewrite HB. change AlertsB.weatherApi with AlertsA.weatherApi.
  cbv zeta. rewrite Hnet. unfold settle. rewrite Hok, Hjson.
  rewrite (displayAlerts_A_renders _ data (meanwhileA dA) l Hf Hl).
  rewrite (displayAlerts_B_renders _ data (meanwhileB dB) l Hf Hl).
  cbn [snd].
  rewrite onClick_A_no_state by reflexivity.
  rewrite onClick_B_no_state by reflexivity.
  split; reflexivity.
Qed.

Lemma onClick_twice_witness :
  ClickA.onClick net_down (typingA "tx")
    (final (ClickA.onClick (net_status 200 two_alerts) (typingA "tx"))
       (pageA_with_error, [])) =
  (Returned tt,
   ({| AlertsA.stateInput_value := "";
       AlertsA.alertsDiv_children := [];
       AlertsA.errorDiv_hidden := false;
       AlertsA.errorDiv_textContent := "Please enter a state abbreviation." |},
    ["https://api.weather.gov/alerts/active?area=NY"])).
Proof.
  exact (proj1 (onClick_twice (net_status 200 two_alerts) net_down [] "ny" _
                  two_alerts _ (typingA "tx") (typingA "tx") pageA_with_error
                  (typingB "tx") (typingB "tx") pageB_with_error
                  eq_refl eq_refl eq_refl eq_refl eq_refl eq_refl eq_refl eq_refl)).
Defined.
